(** * robust_generator.py: the generation-and-validation pipeline

    A shallow embedding of [src/robust_generator.py] and the properties of
    its enhancement fallback, response clean-up, project writer and smoke
    test.

    Python [str] values are sequences of Unicode code points, so a string is
    a [list N] here.  The language model, the builtin [compile], the
    operating system's file layer and [subprocess.run] are not code of the
    repository: they are the fields of an environment record [env] and every
    theorem is stated for an arbitrary environment. *)

From Stdlib Require Import NArith ZArith Ascii String List Lia.
From stdpp Require Import base option list gmap.

Open Scope N_scope.
Open Scope list_scope.

(** ** Python strings *)

Abbreviation char := N.
Abbreviation str := (list N).

(** An ASCII literal of the source text as a [str]. *)
Definition u (s : string) : str :=
  map N_of_ascii (list_ascii_of_string s).

(** The double quote and the newline. *)
Definition dq : str := [34].
Definition LF : str := [10].

(** [str.isspace] on one character: the code points CPython's
    [_PyUnicode_IsWhitespace] accepts. *)
Definition isspace (c : char) : bool :=
  ((9 <=? c) && (c <=? 13)) || ((28 <=? c) && (c <=? 32))
  || (c =? 133) || (c =? 160) || (c =? 5760)
  || ((8192 <=? c) && (c <=? 8202))
  || (c =? 8232) || (c =? 8233) || (c =? 8239) || (c =? 8287)
  || (c =? 12288).

Fixpoint lstrip (s : str) : str :=
  match s with
  | [] => []
  | c :: s' => if isspace c then lstrip s' else s
  end.

Definition rstrip (s : str) : str := rev (lstrip (rev s)).

(** [s.strip()] *)
Definition strip (s : str) : str := rstrip (lstrip s).

(** [s.startswith(p)] *)
Fixpoint startswith (s p : str) {struct p} : bool :=
  match p, s with
  | [], _ => true
  | _ :: _, [] => false
  | a :: p', c :: s' => (c =? a) && startswith s' p'
  end.

(** [s.endswith(p)] *)
Definition endswith (s p : str) : bool := startswith (rev s) (rev p).

(** [s[n:]] and [s[:-n]] for a literal [n] *)
Definition slice_from (n : nat) (s : str) : str := drop n s.
Definition slice_to_minus (n : nat) (s : str) : str :=
  take (length s - n) s.

(** [sep.join(parts)] *)
Fixpoint join (sep : str) (parts : list str) : str :=
  match parts with
  | [] => []
  | [p] => p
  | p :: rest => p ++ sep ++ join sep rest
  end.

(** The lines of a triple-quoted literal whose last line is terminated. *)
Definition unlines (ls : list str) : str := concat (map (fun l => l ++ LF) ls).

(** [s.split(sep)] for a one-character separator. *)
Fixpoint split_on (sep : char) (s : str) : list str :=
  match s with
  | [] => [[]]
  | c :: s' =>
      if c =? sep then [] :: split_on sep s'
      else match split_on sep s' with
           | w :: ws => (c :: w) :: ws
           | [] => [[c]]
           end
  end.

(** ** [re.sub(r'<think>.*?</think>', '', s, flags=re.DOTALL)]

    The pattern is a literal opening tag, a lazy run of arbitrary characters
    (DOTALL: newlines included) and a literal closing tag.  A match that
    starts at the head of [s] therefore ends at the first closing tag found
    after the opening one. *)

Definition think_open : str := u "<think>".
Definition think_close : str := u "</think>".

(** What follows the first [</think>] of [s], if there is one. *)
Fixpoint after_close (s : str) : option str :=
  if startswith s think_close then Some (drop 8 s)
  else match s with
       | [] => None
       | _ :: s' => after_close s'
       end.

(** The pattern matched at the head of [s]: what follows the match. *)
Definition match_think (s : str) : option str :=
  if startswith s think_open then after_close (drop 7 s) else None.

(** [re.sub] scans from the left; where the pattern matches, the match is
    replaced by the empty string and the scan resumes behind it, otherwise
    one character is copied.  [fuel] bounds the number of steps; every step
    consumes at least one character, so [length s] steps are enough
    ([re_sub_fuel_enough]). *)
Fixpoint re_sub_fuel (fuel : nat) (s : str) : str :=
  match fuel with
  | O => s
  | S fuel' =>
      match s with
      | [] => []
      | c :: s' =>
          match match_think s with
          | Some rest => re_sub_fuel fuel' rest
          | None => c :: re_sub_fuel fuel' s'
          end
      end
  end.

Definition re_sub_think (s : str) : str := re_sub_fuel (length s) s.

(** Some position of [s] starts a match of the pattern. *)
Fixpoint has_think (s : str) : bool :=
  match match_think s with
  | Some _ => true
  | None => match s with
            | [] => false
            | _ :: s' => has_think s'
            end
  end.

(** ** The response clean-up of [enhance_with_llm] (lines 148-159) *)

Definition fence : str := u "```".
Definition fence_python : str := u "```python".

Definition sanitize (content : str) : str :=
  let enhanced_code := strip content in
  let enhanced_code := re_sub_think enhanced_code in
  let enhanced_code :=
    if startswith enhanced_code fence_python then slice_from 9 enhanced_code
    else if startswith enhanced_code fence then slice_from 3 enhanced_code
    else enhanced_code in
  let enhanced_code :=
    if endswith enhanced_code fence then slice_to_minus 3 enhanced_code
    else enhanced_code in
  strip enhanced_code.

(** The two fence steps of [sanitize], named for the proofs
    ([sanitize_steps]). *)
Definition drop_leading_fence (t : str) : str :=
  if startswith t fence_python then slice_from 9 t
  else if startswith t fence then slice_from 3 t
  else t.
Definition drop_trailing_fence (t : str) : str :=
  if endswith t fence then slice_to_minus 3 t else t.

(** ** Exceptions and results *)

(** The exception classes the program can meet.  [ConnectError] and
    [ResponseError] are what the model client raises when the backend is
    unreachable or answers with a fault; [OSError] stands for itself and its
    subclasses ([FileNotFoundError], [PermissionError]); [KeyboardInterrupt]
    derives from [BaseException] only. *)
Inductive exn_class : Type :=
  | SyntaxError
  | ValueError
  | OSError
  | CalledProcessError
  | ConnectError
  | ResponseError
  | KeyboardInterrupt.

(** An exception object: its class and [str(e)]. *)
Record exn : Type := Exn { exn_cls : exn_class; exn_str : str }.

(** [isinstance(e, SyntaxError)] *)
Definition isinstance_SyntaxError (e : exn) : bool :=
  match exn_cls e with SyntaxError => true | _ => false end.

(** [isinstance(e, Exception)] *)
Definition isinstance_Exception (e : exn) : bool :=
  match exn_cls e with KeyboardInterrupt => false | _ => true end.

Inductive result (A : Type) : Type :=
  | Ok (a : A)
  | Raise (e : exn).
Arguments Ok {A} a.
Arguments Raise {A} e.

(** ** Paths ([pathlib.Path], POSIX flavour) *)

(** A relative path is the list of its components. *)
Abbreviation path := (list (list N)).

Definition slash : char := 47.

(** [Path(s)] for a relative [s]: empty components and [.] are dropped. *)
Definition Path (s : str) : path :=
  filter (fun c => c <> [] /\ c <> u ".") (split_on slash s).

(** [p / name] for a one-component [name] *)
Definition path_div (p : path) (name : str) : path := p ++ [name].
Infix "//" := path_div (at level 40, left associativity).

(** [str(p)] for a path with at least one component *)
Definition path_str (p : path) : str := join [slash] p.

(** ** The world: standard output and the files written *)

Record state : Type := State {
  stdout : list str;          (* one entry per [print] call *)
  fs : gmap (list (list N)) (list N)   (* contents of the files, by path *)
}.

(** [subprocess.CompletedProcess] *)
Record completed_process : Type := CompletedProcess {
  returncode : Z;
  proc_stdout : str;
  proc_stderr : str
}.

(** What the program does not define itself.  The fields are the answers
    of the outside world to the calls the program makes.  The files a child
    process creates or changes on its own (the virtual environment, what
    [pip] installs) are not part of the model: [fs] holds what this program
    wrote. *)
Record env : Type := Env {
  (* [ChatOllama(model=...).invoke([HumanMessage(content=prompt)])]:
     the [content] of the answer, or the exception raised *)
  llm_invoke : str -> str -> result str;
  (* [compile(source, filename, 'exec')] *)
  py_compile : str -> str -> result unit;
  (* [Path.mkdir(parents=True, exist_ok=True)] refused by the system *)
  mkdir_fault : path -> option exn;
  (* [open(p, "w")] and [f.write(text)] refused by the system *)
  write_fault : path -> str -> option exn;
  (* [open(p, "r")] and [f.read()] refused by the system *)
  read_fault : path -> option exn;
  (* the [FileNotFoundError] built for a path that has no file *)
  file_not_found : path -> exn;
  (* [subprocess.run(args, check=..., cwd=..., capture_output=True)] *)
  subprocess_run : list str -> bool -> path -> result completed_process
}.

(** ** Computations: state passing with exceptions *)

Definition M (A : Type) : Type := state -> result A * state.

Definition ret {A} (a : A) : M A := fun st => (Ok a, st).

Definition bind {A B} (m : M A) (k : A -> M B) : M B :=
  fun st =>
    match m st with
    | (Ok a, st') => k a st'
    | (Raise e, st') => (Raise e, st')
    end.

#[global] Instance M_ret : MRet M := @ret.
#[global] Instance M_bind : MBind M := fun A B k m => bind m k.

(** A call into the environment that does not touch the state. *)
Definition lift {A} (r : result A) : M A := fun st => (r, st).

(** [print(line)], on a standard output that takes every line (for one that
    can refuse a line see [Console.print]) *)
Definition print (line : str) : M unit :=
  fun st => (Ok tt, State (stdout st ++ [line]) (fs st)).

(** [try: body  except C1 as e: h1  except C2 as e: h2 ...]: the first
    clause whose class test accepts the exception handles it; an exception
    no clause accepts, or one raised by a handler, propagates. *)
Fixpoint dispatch {A} (clauses : list ((exn -> bool) * (exn -> M A)))
    (e : exn) : M A :=
  match clauses with
  | [] => fun st => (Raise e, st)
  | (accepts, handler) :: rest =>
      if accepts e then handler e else dispatch rest e
  end.

Definition try_except {A} (body : M A)
    (clauses : list ((exn -> bool) * (exn -> M A))) : M A :=
  fun st =>
    match body st with
    | (Ok a, st') => (Ok a, st')
    | (Raise e, st') => dispatch clauses e st'
    end.

(** [p.mkdir(parents=True, exist_ok=True)] *)
Definition mkdir (E : env) (p : path) : M unit :=
  fun st =>
    match mkdir_fault E p with
    | Some e => (Raise e, st)
    | None => (Ok tt, st)
    end.

(** [with open(p, "w") as f: f.write(text)].  A refused write leaves the
    entry as it was: that [open] empties the file before [write] can fail is
    not part of the model. *)
Definition write_file (E : env) (p : path) (text : str) : M unit :=
  fun st =>
    match write_fault E p text with
    | Some e => (Raise e, st)
    | None => (Ok tt, State (stdout st) (<[p := text]> (fs st)))
    end.

(** [with open(p, "r") as f: code = f.read()].  The text comes back as it
    was written: that text mode turns a carriage return into a newline on
    reading is not part of the model. *)
Definition read_file (E : env) (p : path) : M str :=
  fun st =>
    match read_fault E p with
    | Some e => (Raise e, st)
    | None =>
        match fs st !! p with
        | Some text => (Ok text, st)
        | None => (Raise (file_not_found E p), st)
        end
    end.

(** ** Emoji of the messages *)

Definition robot : str := [129302].            (* U+1F916 *)
Definition check_mark : str := [9989].         (* U+2705 *)
Definition wrench : str := [128295].           (* U+1F527 *)
Definition warning_sign : str := [9888; 65039]. (* U+26A0 U+FE0F *)
Definition rocket : str := [128640].           (* U+1F680 *)
Definition memo : str := [128221].             (* U+1F4DD *)
Definition test_tube : str := [129514].        (* U+1F9EA *)
Definition cross_mark : str := [10060].        (* U+274C *)
Definition party : str := [127881].            (* U+1F389 *)
Definition runner : str := [127939].           (* U+1F3C3 *)

(** ** class RobustFastAPIGenerator *)

(** The object: [self.llm] is determined by the model name. *)
Record RobustFastAPIGenerator : Type := Generator { model_name : str }.

(** [__init__] (the default of [model_name] is ["deepseek-r1:latest"]).
    Building the [ChatOllama] client opens no connection; the model is
    reached by [invoke] only. *)
Definition __init__ (model : str) : M RobustFastAPIGenerator :=
  print (robot ++ u " Initializing with " ++ model) ;;
  print (check_mark ++ u " Generator ready!") ;;
  ret (Generator model).

Definition template : str := unlines [
    u "from fastapi import FastAPI, HTTPException";
    u "from pydantic import BaseModel";
    u "from typing import List, Optional";
    u "import uuid";
    [];
    u "app = FastAPI(";
    u "    title=" ++ dq ++ u "Task Manager API" ++ dq ++ u ",";
    u "    description=" ++ dq ++ u "A simple task management API" ++ dq ++ u ",";
    u "    version=" ++ dq ++ u "1.0.0" ++ dq;
    u ")";
    [];
    u "# Data Models";
    u "class TaskBase(BaseModel):";
    u "    title: str";
    u "    description: Optional[str] = None";
    [];
    u "class TaskCreate(TaskBase):";
    u "    pass";
    [];
    u "class TaskUpdate(TaskBase):";
    u "    completed: Optional[bool] = None";
    [];
    u "class Task(TaskBase):";
    u "    id: str";
    u "    completed: bool = False";
    [];
    u "# In-memory storage (replace with database in production)";
    u "tasks_db = {}";
    [];
    u "@app.get(" ++ dq ++ u "/" ++ dq ++ u ")";
    u "async def root():";
    u "    return {" ++ dq ++ u "message" ++ dq ++ u ": " ++ dq ++ u "Welcome to Task Manager API" ++ dq ++ u ", " ++ dq ++ u "docs" ++ dq ++ u ": " ++ dq ++ u "/docs" ++ dq ++ u "}";
    [];
    u "@app.get(" ++ dq ++ u "/tasks" ++ dq ++ u ", response_model=List[Task])";
    u "async def get_all_tasks():";
    u "    " ++ dq ++ dq ++ dq ++ u "Get all tasks" ++ dq ++ dq ++ dq;
    u "    return list(tasks_db.values())";
    [];
    u "@app.post(" ++ dq ++ u "/tasks" ++ dq ++ u ", response_model=Task)";
    u "async def create_task(task: TaskCreate):";
    u "    " ++ dq ++ dq ++ dq ++ u "Create a new task" ++ dq ++ dq ++ dq;
    u "    task_id = str(uuid.uuid4())";
    u "    new_task = Task(";
    u "        id=task_id,";
    u "        title=task.title,";
    u "        description=task.description,";
    u "        completed=False";
    u "    )";
    u "    tasks_db[task_id] = new_task";
    u "    return new_task";
    [];
    u "@app.get(" ++ dq ++ u "/tasks/{task_id}" ++ dq ++ u ", response_model=Task)";
    u "async def get_task(task_id: str):";
    u "    " ++ dq ++ dq ++ dq ++ u "Get a specific task by ID" ++ dq ++ dq ++ dq;
    u "    if task_id not in tasks_db:";
    u "        raise HTTPException(status_code=404, detail=" ++ dq ++ u "Task not found" ++ dq ++ u ")";
    u "    return tasks_db[task_id]";
    [];
    u "@app.put(" ++ dq ++ u "/tasks/{task_id}" ++ dq ++ u ", response_model=Task)";
    u "async def update_task(task_id: str, task_update: TaskUpdate):";
    u "    " ++ dq ++ dq ++ dq ++ u "Update a specific task" ++ dq ++ dq ++ dq;
    u "    if task_id not in tasks_db:";
    u "        raise HTTPException(status_code=404, detail=" ++ dq ++ u "Task not found" ++ dq ++ u ")";
    [];
    u "    stored_task = tasks_db[task_id]";
    u "    stored_task.title = task_update.title";
    u "    if task_update.description is not None:";
    u "        stored_task.description = task_update.description";
    u "    if task_update.completed is not None:";
    u "        stored_task.completed = task_update.completed";
    [];
    u "    return stored_task";
    [];
    u "@app.delete(" ++ dq ++ u "/tasks/{task_id}" ++ dq ++ u ")";
    u "async def delete_task(task_id: str):";
    u "    " ++ dq ++ dq ++ dq ++ u "Delete a specific task" ++ dq ++ dq ++ dq;
    u "    if task_id not in tasks_db:";
    u "        raise HTTPException(status_code=404, detail=" ++ dq ++ u "Task not found" ++ dq ++ u ")";
    [];
    u "    del tasks_db[task_id]";
    u "    return {" ++ dq ++ u "message" ++ dq ++ u ": " ++ dq ++ u "Task deleted successfully" ++ dq ++ u "}";
    [];
    u "@app.get(" ++ dq ++ u "/tasks/status/completed" ++ dq ++ u ", response_model=List[Task])";
    u "async def get_completed_tasks():";
    u "    " ++ dq ++ dq ++ dq ++ u "Get all completed tasks" ++ dq ++ dq ++ dq;
    u "    return [task for task in tasks_db.values() if task.completed]";
    [];
    u "@app.get(" ++ dq ++ u "/tasks/status/pending" ++ dq ++ u ", response_model=List[Task])";
    u "async def get_pending_tasks():";
    u "    " ++ dq ++ dq ++ dq ++ u "Get all pending tasks" ++ dq ++ dq ++ dq;
    u "    return [task for task in tasks_db.values() if not task.completed]";
    [];
    u "if __name__ == " ++ dq ++ u "__main__" ++ dq ++ u ":";
    u "    import uvicorn";
    u "    uvicorn.run(app, host=" ++ dq ++ u "0.0.0.0" ++ dq ++ u ", port=8000)"
  ].

Definition create_working_fastapi_app (self : RobustFastAPIGenerator)
    (requirements : str) : str :=
  template.

(** The f-string of [enhance_with_llm]. *)
Definition prompt_of (base_code requirements : str) : str :=
  join LF [
    u "Take this working FastAPI code and enhance it based on these requirements: "
      ++ requirements;
    [];
    u "EXISTING CODE:";
    base_code;
    [];
    u "INSTRUCTIONS:";
    u "- Keep all existing functionality working";
    u "- Add any additional endpoints or features mentioned in requirements";
    u "- Maintain the same code structure and style";
    u "- Return ONLY the complete Python code";
    u "- Do not add explanations or markdown";
    u "- Ensure all syntax is valid Python";
    [];
    u "ENHANCED CODE:"
  ].

Definition enhance_with_llm (E : env) (self : RobustFastAPIGenerator)
    (base_code requirements : str) : M str :=
  let prompt := prompt_of base_code requirements in
  try_except
    (print (wrench ++ u " Enhancing with LLM...") ;;
     content ← lift (llm_invoke E (model_name self) prompt) ;
     let enhanced_code := sanitize content in
     try_except
       (lift (py_compile E enhanced_code (u "<string>")) ;;
        print (check_mark ++ u " Enhanced code is valid!") ;;
        mret enhanced_code)
       [(isinstance_SyntaxError, fun e =>
           print (warning_sign ++ u "  Enhanced code has syntax error: "
                  ++ exn_str e) ;;
           print (u "Using base template instead...") ;;
           mret base_code)])
    [(isinstance_Exception, fun e =>
        print (warning_sign ++ u "  Enhancement failed: " ++ exn_str e) ;;
        print (u "Using base template instead...") ;;
        mret base_code)].

(** The text written to requirements.txt. *)
Definition requirements_txt : str := unlines [
    u "fastapi>=0.104.0";
    u "uvicorn>=0.24.0";
    u "pydantic>=2.0.0";
    u "python-multipart>=0.0.6"
  ].

Definition readme_parts (requirements project_name : str) : list str := [
    u "# " ++ project_name;
    [];
    requirements;
    [];
    u "## Features";
    [];
    u "- Task CRUD operations";
    u "- RESTful API design";
    u "- Automatic API documentation";
    u "- Input validation with Pydantic";
    u "- Error handling";
    [];
    u "## Setup and Run";
    [];
    u "```bash";
    u "# Install dependencies";
    u "pip install -r requirements.txt";
    [];
    u "# Run the server";
    u "uvicorn main:app --reload --host 0.0.0.0 --port 8000";
    u "```";
    [];
    u "## API Documentation";
    [];
    u "Visit: http://localhost:8000/docs";
    [];
    u "## Available Endpoints";
    [];
    u "- `GET /` - Welcome message";
    u "- `GET /tasks` - Get all tasks";
    u "- `POST /tasks` - Create a new task";
    u "- `GET /tasks/{task_id}` - Get specific task";
    u "- `PUT /tasks/{task_id}` - Update task";
    u "- `DELETE /tasks/{task_id}` - Delete task";
    u "- `GET /tasks/status/completed` - Get completed tasks";
    u "- `GET /tasks/status/pending` - Get pending tasks"
  ].

Definition test_project (E : env) (self : RobustFastAPIGenerator)
    (project_path : path) : M unit :=
  print (test_tube ++ u " Testing generated code...") ;;
  try_except
    (code ← read_file E (project_path // u "main.py") ;
     lift (py_compile E code (path_str (project_path // u "main.py"))) ;;
     print (check_mark ++ u " Python syntax is valid!") ;;
     let venv_path := project_path // u "venv" in
     lift (subprocess_run E
             [u "python3"; u "-m"; u "venv"; path_str venv_path]
             true project_path) ;;
     let pip_path := venv_path // u "bin" // u "pip" in
     lift (subprocess_run E
             [path_str pip_path; u "install"; u "-r"; u "requirements.txt"]
             true project_path) ;;
     let python_path := venv_path // u "bin" // u "python" in
     result ← lift (subprocess_run E
                      [path_str python_path; u "-c";
                       u "import main; print('" ++ check_mark
                         ++ u " Import successful')"]
                      false project_path) ;
     if (returncode result =? 0)%Z
     then print (check_mark ++ u " Code imports successfully!")
     else print (warning_sign ++ u "  Import test failed: "
                 ++ proc_stderr result))
    [(isinstance_SyntaxError, fun e =>
        print (cross_mark ++ u " Syntax error: " ++ exn_str e));
     (isinstance_Exception, fun e =>
        print (warning_sign ++ u "  Test error: " ++ exn_str e))].

(** [create_project] (the default of [project_name] is ["my_fastapi_app"]) *)
Definition create_project (E : env) (self : RobustFastAPIGenerator)
    (requirements project_name : str) : M str :=
  print (rocket ++ u " Creating project: " ++ project_name) ;;
  print (memo ++ u " Requirements: " ++ requirements) ;;
  let project_path := Path (u "output/" ++ project_name) in
  mkdir E project_path ;;
  let base_code := create_working_fastapi_app self requirements in
  final_code ← enhance_with_llm E self base_code requirements ;
  write_file E (project_path // u "main.py") final_code ;;
  print (check_mark ++ u " Created main.py") ;;
  write_file E (project_path // u "requirements.txt") requirements_txt ;;
  print (check_mark ++ u " Created requirements.txt") ;;
  let readme_content := join LF (readme_parts requirements project_name) in
  write_file E (project_path // u "README.md") readme_content ;;
  print (check_mark ++ u " Created README.md") ;;
  test_project E self project_path ;;
  mret (path_str project_path).

(** The requirements text of [main]. *)
Definition main_requirements : str :=
  LF ++ unlines [
    u "    Task manager API with full CRUD operations:";
    u "    - Create, read, update, delete tasks";
    u "    - Each task has: id, title, description, completed status";
    u "    - Filter tasks by completion status";
    u "    - RESTful design with proper HTTP methods"
  ] ++ u "    ".

Definition main (E : env) : M unit :=
  generator ← __init__ (u "qwen3:8b") ;
  let requirements := main_requirements in
  project_path ← create_project E generator requirements
                   (u "robust_task_manager") ;
  print (LF ++ party ++ u " Project created at: " ++ project_path) ;;
  print (LF ++ runner ++ u " To run:") ;;
  print (u "cd " ++ project_path) ;;
  print (u "source venv/bin/activate") ;;
  print (u "uvicorn main:app --reload").

(** [if __name__ == "__main__": main()]: the interpreter's exit status.  An
    exception that leaves [main] ends the process with a traceback and
    status 1 (an interrupt: 130). *)
Definition exit_status (r : result unit) : Z :=
  match r with
  | Ok _ => 0%Z
  | Raise e =>
      match exn_cls e with
      | KeyboardInterrupt => 130%Z
      | _ => 1%Z
      end
  end.

Definition run_main (E : env) (st : state) : Z * state :=
  let (r, st') := main E st in (exit_status r, st').

(** ** Reading the manifest back *)

(** A requirement line [name>=version]. *)
Fixpoint split_ge (s : str) : option (str * str) :=
  match s with
  | [] => None
  | c :: s' =>
      if startswith s (u ">=") then Some ([], drop 2 s)
      else match split_ge s' with
           | Some (name, version) => Some (c :: name, version)
           | None => None
           end
  end.

(** The entries of a manifest: its non-empty lines. *)
Definition manifest_entries (txt : str) : list (option (str * str)) :=
  map split_ge (filter (fun l => l <> []) (split_on 10 txt)).

(** ** What the cleaned text may still carry *)

(** No marker is left: no think block, no fence at either end. *)
Definition marker_free (t : str) : bool :=
  negb (has_think t) && negb (startswith t fence) && negb (endswith t fence).

(** [sub] occurs in [s] as a contiguous run of characters. *)
Definition substring (sub s : str) : Prop :=
  exists before after, s = before ++ sub ++ after.

(** Every exception the environment can raise derives from [Exception]. *)
Definition raises_only_Exception (E : env) : Prop :=
  (forall model prompt e,
      llm_invoke E model prompt = Raise e -> isinstance_Exception e = true)
  /\ (forall source filename e,
      py_compile E source filename = Raise e -> isinstance_Exception e = true)
  /\ (forall p e, read_fault E p = Some e -> isinstance_Exception e = true)
  /\ (forall p, isinstance_Exception (file_not_found E p) = true)
  /\ (forall args check cwd e,
      subprocess_run E args check cwd = Raise e ->
      isinstance_Exception e = true).

(** The directory and the three files of a project can be written. *)
Definition writable (E : env) (project_path : path) : Prop :=
  mkdir_fault E project_path = None
  /\ (forall text, write_fault E (project_path // u "main.py") text = None)
  /\ (forall text,
        write_fault E (project_path // u "requirements.txt") text = None)
  /\ (forall text, write_fault E (project_path // u "README.md") text = None).

(** A line of the output that reports a failure. *)
Definition is_warning (line : str) : bool :=
  startswith line warning_sign || startswith line cross_mark.

(** The enhancement step of [create_project] hands over [code]. *)
Definition delivers (E : env) (self : RobustFastAPIGenerator)
    (requirements code : str) : Prop :=
  forall st,
    fst (enhance_with_llm E self
           (create_working_fastapi_app self requirements) requirements st)
    = Ok code.

(** The enhancement fails: the model client raises, or [compile] rejects the
    cleaned answer ([SyntaxError] is one of the classes below [Exception]). *)
Definition enhancement_fails (E : env) (self : RobustFastAPIGenerator)
    (base_code requirements : str) : Prop :=
  (exists e,
      llm_invoke E (model_name self) (prompt_of base_code requirements)
      = Raise e
      /\ isinstance_Exception e = true)
  \/ (exists content e,
      llm_invoke E (model_name self) (prompt_of base_code requirements)
      = Ok content
      /\ py_compile E (sanitize content) (u "<string>") = Raise e
      /\ isinstance_Exception e = true).

(** [e] is the first refusal of the file layer that [create_project] meets:
    at the directory, or at one of the three files after everything before
    it went through. *)
Inductive first_fs_error (E : env) (self : RobustFastAPIGenerator)
    (requirements project_name : str) (e : exn) : Prop :=
  | fails_mkdir :
      mkdir_fault E (Path (u "output/" ++ project_name)) = Some e ->
      first_fs_error E self requirements project_name e
  | fails_main_py code :
      mkdir_fault E (Path (u "output/" ++ project_name)) = None ->
      delivers E self requirements code ->
      write_fault E (Path (u "output/" ++ project_name) // u "main.py") code
      = Some e ->
      first_fs_error E self requirements project_name e
  | fails_requirements_txt code :
      mkdir_fault E (Path (u "output/" ++ project_name)) = None ->
      delivers E self requirements code ->
      write_fault E (Path (u "output/" ++ project_name) // u "main.py") code
      = None ->
      write_fault E (Path (u "output/" ++ project_name) // u "requirements.txt")
        requirements_txt = Some e ->
      first_fs_error E self requirements project_name e
  | fails_readme_md code :
      mkdir_fault E (Path (u "output/" ++ project_name)) = None ->
      delivers E self requirements code ->
      write_fault E (Path (u "output/" ++ project_name) // u "main.py") code
      = None ->
      write_fault E (Path (u "output/" ++ project_name) // u "requirements.txt")
        requirements_txt = None ->
      write_fault E (Path (u "output/" ++ project_name) // u "README.md")
        (join LF (readme_parts requirements project_name)) = Some e ->
      first_fs_error E self requirements project_name e.

(** The three commands of the smoke test. *)
Definition venv_args (project_path : path) : list str :=
  [u "python3"; u "-m"; u "venv"; path_str (project_path // u "venv")].
Definition pip_args (project_path : path) : list str :=
  [path_str (project_path // u "venv" // u "bin" // u "pip");
   u "install"; u "-r"; u "requirements.txt"].
Definition import_args (project_path : path) : list str :=
  [path_str (project_path // u "venv" // u "bin" // u "python"); u "-c";
   u "import main; print('" ++ check_mark ++ u " Import successful')"].

(** Every step of the smoke test goes through. *)
Definition smoke_test_passes (E : env) (project_path : path) (st : state)
    : Prop :=
  exists code venv pip imp,
    read_fault E (project_path // u "main.py") = None
    /\ fs st !! (project_path // u "main.py") = Some code
    /\ py_compile E code (path_str (project_path // u "main.py")) = Ok tt
    /\ subprocess_run E (venv_args project_path) true project_path = Ok venv
    /\ subprocess_run E (pip_args project_path) true project_path = Ok pip
    /\ subprocess_run E (import_args project_path) false project_path = Ok imp
    /\ returncode imp = 0%Z.

(** ** The program on a standard output that can refuse a line

    [print] above always succeeds.  Python's [print] raises when the
    standard output cannot take the line: [UnicodeEncodeError] (a
    [ValueError]) where its encoding has no form for a character of the
    line, [OSError] where the write is refused.  A [console] gives, for a
    line, the exception [print] raises on it; the module [Console] is the
    program of lines 15-316 once more, with this [print]. *)

Record console : Type := mkConsole {
  stdout_fault : str -> option exn
}.

(** The standard output takes every line. *)
Definition stdout_accepts (C : console) : Prop :=
  forall line, stdout_fault C line = None.

Module Console.

(** [print(line)] *)
Definition print (C : console) (line : str) : M unit :=
  fun st =>
    match stdout_fault C line with
    | Some e => (Raise e, st)
    | None => (Ok tt, State (stdout st ++ [line]) (fs st))
    end.

Definition __init__ (C : console) (model : str) : M RobustFastAPIGenerator :=
  print C (robot ++ u " Initializing with " ++ model) ;;
  print C (check_mark ++ u " Generator ready!") ;;
  ret (Generator model).

Definition enhance_with_llm (C : console) (E : env)
    (self : RobustFastAPIGenerator) (base_code requirements : str) : M str :=
  let prompt := prompt_of base_code requirements in
  try_except
    (print C (wrench ++ u " Enhancing with LLM...") ;;
     content ← lift (llm_invoke E (model_name self) prompt) ;
     let enhanced_code := sanitize content in
     try_except
       (lift (py_compile E enhanced_code (u "<string>")) ;;
        print C (check_mark ++ u " Enhanced code is valid!") ;;
        mret enhanced_code)
       [(isinstance_SyntaxError, fun e =>
           print C (warning_sign ++ u "  Enhanced code has syntax error: "
                    ++ exn_str e) ;;
           print C (u "Using base template instead...") ;;
           mret base_code)])
    [(isinstance_Exception, fun e =>
        print C (warning_sign ++ u "  Enhancement failed: " ++ exn_str e) ;;
        print C (u "Using base template instead...") ;;
        mret base_code)].

Definition test_project (C : console) (E : env)
    (self : RobustFastAPIGenerator) (project_path : path) : M unit :=
  print C (test_tube ++ u " Testing generated code...") ;;
  try_except
    (code ← read_file E (project_path // u "main.py") ;
     lift (py_compile E code (path_str (project_path // u "main.py"))) ;;
     print C (check_mark ++ u " Python syntax is valid!") ;;
     let venv_path := project_path // u "venv" in
     lift (subprocess_run E
             [u "python3"; u "-m"; u "venv"; path_str venv_path]
             true project_path) ;;
     let pip_path := venv_path // u "bin" // u "pip" in
     lift (subprocess_run E
             [path_str pip_path; u "install"; u "-r"; u "requirements.txt"]
             true project_path) ;;
     let python_path := venv_path // u "bin" // u "python" in
     result ← lift (subprocess_run E
                      [path_str python_path; u "-c";
                       u "import main; print('" ++ check_mark
                         ++ u " Import successful')"]
                      false project_path) ;
     if (returncode result =? 0)%Z
     then print C (check_mark ++ u " Code imports successfully!")
     else print C (warning_sign ++ u "  Import test failed: "
                   ++ proc_stderr result))
    [(isinstance_SyntaxError, fun e =>
        print C (cross_mark ++ u " Syntax error: " ++ exn_str e));
     (isinstance_Exception, fun e =>
        print C (warning_sign ++ u "  Test error: " ++ exn_str e))].

Definition create_project (C : console) (E : env)
    (self : RobustFastAPIGenerator) (requirements project_name : str)
    : M str :=
  print C (rocket ++ u " Creating project: " ++ project_name) ;;
  print C (memo ++ u " Requirements: " ++ requirements) ;;
  let project_path := Path (u "output/" ++ project_name) in
  mkdir E project_path ;;
  let base_code := create_working_fastapi_app self requirements in
  final_code ← enhance_with_llm C E self base_code requirements ;
  write_file E (project_path // u "main.py") final_code ;;
  print C (check_mark ++ u " Created main.py") ;;
  write_file E (project_path // u "requirements.txt") requirements_txt ;;
  print C (check_mark ++ u " Created requirements.txt") ;;
  let readme_content := join LF (readme_parts requirements project_name) in
  write_file E (project_path // u "README.md") readme_content ;;
  print C (check_mark ++ u " Created README.md") ;;
  test_project C E self project_path ;;
  mret (path_str project_path).

Definition main (C : console) (E : env) : M unit :=
  generator ← __init__ C (u "qwen3:8b") ;
  let requirements := main_requirements in
  project_path ← create_project C E generator requirements
                   (u "robust_task_manager") ;
  print C (LF ++ party ++ u " Project created at: " ++ project_path) ;;
  print C (LF ++ runner ++ u " To run:") ;;
  print C (u "cd " ++ project_path) ;;
  print C (u "source venv/bin/activate") ;;
  print C (u "uvicorn main:app --reload").

Definition run_main (C : console) (E : env) (st : state) : Z * state :=
  let (r, st') := main C E st in (exit_status r, st').

End Console.

(** The five lines [main] prints after [create_project] has returned. *)
Definition main_closing_lines : list str := [
    LF ++ party ++ u " Project created at: output/robust_task_manager";
    LF ++ runner ++ u " To run:";
    u "cd output/robust_task_manager";
    u "source venv/bin/activate";
    u "uvicorn main:app --reload"
  ].

(** A standard output that takes everything, and one with the ASCII
    encoding. *)
Definition utf8_console : console := mkConsole (fun _ => None).

Definition ascii_console : console :=
  mkConsole (fun line =>
    if forallb (fun c => c <? 128) line then None
    else Some (Exn ValueError
                 (u "'ascii' codec can't encode character"))).

(** ** Sample environments *)

(** A validator that rejects one text and accepts the others. *)
Definition sample_compile (source filename : str) : result unit :=
  if decide (source = u "def (")
  then Raise (Exn SyntaxError (u "invalid syntax (<string>, line 1)"))
  else Ok tt.

(** A machine with a given model answer and a given answer of [mkdir];
    everything else succeeds. *)
Definition sample_env (answer : result str) (mk : option exn) : env := {|
  llm_invoke := fun _ _ => answer;
  py_compile := sample_compile;
  mkdir_fault := fun _ => mk;
  write_fault := fun _ _ => None;
  read_fault := fun _ => None;
  file_not_found := fun p =>
    Exn OSError (u "[Errno 2] No such file or directory");
  subprocess_run := fun _ _ _ => Ok (CompletedProcess 0 [] [])
|}.

(** The same machine with one path that cannot be written. *)
Definition sample_env_refusing (answer : result str) (refused : path) : env := {|
  llm_invoke := fun _ _ => answer;
  py_compile := sample_compile;
  mkdir_fault := fun _ => None;
  write_fault := fun p _ =>
    if decide (p = refused)
    then Some (Exn OSError (u "[Errno 13] Permission denied"))
    else None;
  read_fault := fun _ => None;
  file_not_found := fun p =>
    Exn OSError (u "[Errno 2] No such file or directory");
  subprocess_run := fun _ _ _ => Ok (CompletedProcess 0 [] [])
|}.

Definition connection_refused : exn :=
  Exn ConnectError (u "[Errno 111] Connection refused").

Definition permission_denied : exn :=
  Exn OSError (u "[Errno 13] Permission denied: 'output'").

Definition empty_state : state := State [] ∅.

Definition demo_generator : RobustFastAPIGenerator := Generator (u "qwen3:8b").

(** A project whose main.py does not parse. *)
Definition broken_project : state :=
  State [] {[ [u "output"; u "demo"; u "main.py"] := u "def (" ]}.


(** ** Python dictionaries

    A [dict] keeps its entries in insertion order and its keys are distinct:
    an association list without repeated keys. *)

Abbreviation pydict V := (list (list N * V)).

(** [d[k]], [None] standing for [KeyError]; [k in d] is [is_Some] of it. *)
Fixpoint dict_get {V} (d : pydict V) (k : str) : option V :=
  match d with
  | [] => None
  | (k', v) :: d' => if decide (k' = k) then Some v else dict_get d' k
  end.

(** [d[k] = v]: a key that is present keeps its place, a new one goes last. *)
Fixpoint dict_set {V} (d : pydict V) (k : str) (v : V) : pydict V :=
  match d with
  | [] => [(k, v)]
  | (k', v') :: d' =>
      if decide (k' = k) then (k, v) :: d' else (k', v') :: dict_set d' k v
  end.

(** [del d[k]] for a key that is present *)
Fixpoint dict_del {V} (d : pydict V) (k : str) : pydict V :=
  match d with
  | [] => []
  | (k', v') :: d' =>
      if decide (k' = k) then d' else (k', v') :: dict_del d' k
  end.

(** [d.keys()] and [d.values()] *)
Definition dict_keys {V} (d : pydict V) : list str := map fst d.
Definition dict_values {V} (d : pydict V) : list V := map snd d.

(** [fastapi.HTTPException(status_code=..., detail=...)] *)
Record HTTPException : Type := mkHTTPException {
  status_code : Z;
  detail : str
}.

(** What a handler gives back: its return value, or the exception raised. *)
Inductive response (A : Type) : Type :=
  | Return (a : A)
  | RaiseHTTP (e : HTTPException).
Arguments Return {A} a.
Arguments RaiseHTTP {A} e.

(** ** The service of the template (lines 28-122 of robust_generator.py,
    written out as src/output/robust_task_manager/main.py) *)

Module RobustTaskManager.

(** [class TaskBase], [TaskCreate], [TaskUpdate], [Task]: [Optional] fields
    are options, [None] being their default. *)
Record TaskCreate : Type := mkTaskCreate {
  TaskCreate_title : str;
  TaskCreate_description : option str
}.

Record TaskUpdate : Type := mkTaskUpdate {
  TaskUpdate_title : str;
  TaskUpdate_description : option str;
  TaskUpdate_completed : option bool
}.

Record Task : Type := mkTask {
  Task_id : str;
  Task_title : str;
  Task_description : option str;
  Task_completed : bool
}.

(** [tasks_db = {}] *)
Definition tasks_db_init : pydict Task := [].

Definition not_found : HTTPException :=
  mkHTTPException 404 (u "Task not found").

(** [root] returns a fixed dictionary. *)
Definition root : pydict str :=
  [(u "message", u "Welcome to Task Manager API"); (u "docs", u "/docs")].

Definition get_all_tasks (tasks_db : pydict Task) : list Task :=
  dict_values tasks_db.

(** [uuid4] is the text of the identifier drawn by [str(uuid.uuid4())]. *)
Definition create_task (uuid4 : str) (task : TaskCreate)
    (tasks_db : pydict Task) : Task * pydict Task :=
  let task_id := uuid4 in
  let new_task :=
    mkTask task_id (TaskCreate_title task) (TaskCreate_description task)
      false in
  (new_task, dict_set tasks_db task_id new_task).

Definition get_task (task_id : str) (tasks_db : pydict Task)
    : response Task :=
  match dict_get tasks_db task_id with
  | None => RaiseHTTP not_found
  | Some stored_task => Return stored_task
  end.

(** The stored object is changed in place: the dictionary holds the changed
    task under the same key, at the same place. *)
Definition update_task (task_id : str) (task_update : TaskUpdate)
    (tasks_db : pydict Task) : response Task * pydict Task :=
  match dict_get tasks_db task_id with
  | None => (RaiseHTTP not_found, tasks_db)
  | Some stored_task =>
      let stored_task :=
        mkTask (Task_id stored_task) (TaskUpdate_title task_update)
          (Task_description stored_task) (Task_completed stored_task) in
      let stored_task :=
        match TaskUpdate_description task_update with
        | Some d =>
            mkTask (Task_id stored_task) (Task_title stored_task) (Some d)
              (Task_completed stored_task)
        | None => stored_task
        end in
      let stored_task :=
        match TaskUpdate_completed task_update with
        | Some c =>
            mkTask (Task_id stored_task) (Task_title stored_task)
              (Task_description stored_task) c
        | None => stored_task
        end in
      (Return stored_task, dict_set tasks_db task_id stored_task)
  end.

Definition delete_task (task_id : str) (tasks_db : pydict Task)
    : response (pydict str) * pydict Task :=
  match dict_get tasks_db task_id with
  | None => (RaiseHTTP not_found, tasks_db)
  | Some _ =>
      (Return [(u "message", u "Task deleted successfully")],
       dict_del tasks_db task_id)
  end.

Definition get_completed_tasks (tasks_db : pydict Task) : list Task :=
  filter (fun task => Task_completed task = true) (dict_values tasks_db).

Definition get_pending_tasks (tasks_db : pydict Task) : list Task :=
  filter (fun task => Task_completed task = false) (dict_values tasks_db).

(** A request to the service and the store after serving it. *)
Inductive request : Type :=
  | POST_tasks (uuid4 : str) (task : TaskCreate)
  | PUT_task (task_id : str) (task_update : TaskUpdate)
  | DELETE_task (task_id : str)
  | GET_any.

Definition serve (tasks_db : pydict Task) (r : request) : pydict Task :=
  match r with
  | POST_tasks uuid4 task => snd (create_task uuid4 task tasks_db)
  | PUT_task task_id task_update =>
      snd (update_task task_id task_update tasks_db)
  | DELETE_task task_id => snd (delete_task task_id tasks_db)
  | GET_any => tasks_db
  end.

(** The store after a sequence of requests, from the empty one. *)
Definition run (rs : list request) : pydict Task :=
  foldl serve tasks_db_init rs.

(** Every task is filed under its own identifier, and no key is repeated. *)
Definition store_ok (tasks_db : pydict Task) : Prop :=
  NoDup (dict_keys tasks_db)
  /\ Forall (fun kv => Task_id (snd kv) = fst kv) tasks_db.

End RobustTaskManager.

(** ** The service of src/output/task_manager/main.py (the code between the
    fence lines of that file) *)

Module TaskManager.

(** [class Task]; a [UUID] is its 128-bit number. *)
Record Task : Type := mkTask {
  Task_id : N;
  Task_title : str;
  Task_description : str;
  Task_completed : bool
}.

#[global] Instance Task_eq_dec : EqDecision Task.
Proof. solve_decision. Defined.

(** [tasks = []] *)
Definition tasks_init : list Task := [].

Definition not_found : HTTPException :=
  mkHTTPException 404 (u "Task not found").

(** The [for] loop returns the first task with the identifier. *)
Fixpoint get_task_by_id (task_id : N) (tasks : list Task) : option Task :=
  match tasks with
  | [] => None
  | task :: rest =>
      if (Task_id task =? task_id)%N then Some task
      else get_task_by_id task_id rest
  end.

Definition list_tasks (tasks : list Task) : list Task := tasks.

Definition create_task (task : Task) (tasks : list Task)
    : Task * list Task :=
  (task, tasks ++ [task]).

Definition get_task (task_id : N) (tasks : list Task) : response Task :=
  match get_task_by_id task_id tasks with
  | None => RaiseHTTP not_found
  | Some task => Return task
  end.

(** The object [get_task_by_id] returns is the element of the list: changing
    its fields changes the first task with the identifier, in place. *)
Fixpoint assign_first (task_id : N) (updated_task : Task)
    (tasks : list Task) : list Task :=
  match tasks with
  | [] => []
  | task :: rest =>
      if (Task_id task =? task_id)%N
      then mkTask (Task_id task) (Task_title updated_task)
             (Task_description updated_task) (Task_completed updated_task)
           :: rest
      else task :: assign_first task_id updated_task rest
  end.

Definition update_task (task_id : N) (updated_task : Task)
    (tasks : list Task) : response Task * list Task :=
  match get_task_by_id task_id tasks with
  | None => (RaiseHTTP not_found, tasks)
  | Some task =>
      (Return (mkTask (Task_id task) (Task_title updated_task)
                 (Task_description updated_task)
                 (Task_completed updated_task)),
       assign_first task_id updated_task tasks)
  end.

(** [tasks.remove(task)]: the first element equal to [task] goes. *)
Fixpoint list_remove (task : Task) (tasks : list Task) : list Task :=
  match tasks with
  | [] => []
  | t :: rest => if decide (t = task) then rest else t :: list_remove task rest
  end.

Definition delete_task (task_id : N) (tasks : list Task)
    : response unit * list Task :=
  match get_task_by_id task_id tasks with
  | None => (RaiseHTTP not_found, tasks)
  | Some task => (Return tt, list_remove task tasks)
  end.

End TaskManager.

Close Scope N_scope.

(** * Properties *)

(** ** Stripping *)

Section Strip.
Implicit Types s t : list N.

Lemma lstrip_suffix s : exists w, s = w ++ lstrip s.
Proof.
  induction s as [|c s [w IH]]; simpl.
  - by exists [].
  - destruct (isspace c).
    + exists (c :: w). simpl. by f_equal.
    + by exists [].
Qed.

Lemma lstrip_length s : length (lstrip s) <= length s.
Proof.
  destruct (lstrip_suffix s) as [w Hw].
  rewrite Hw at 2. rewrite length_app. lia.
Qed.

(** A text with no leading blank is left alone. *)
Lemma lstrip_fixed s :
  lstrip s = s <-> match s with [] => True | c :: _ => isspace c = false end.
Proof.
  destruct s as [|c s']; simpl; [done|].
  destruct (isspace c) eqn:Hc; split; try done.
  intros H. pose proof (lstrip_length s') as Hl.
  rewrite H in Hl. simpl in Hl. lia.
Qed.

Lemma lstrip_idem s : lstrip (lstrip s) = lstrip s.
Proof.
  induction s as [|c s IH]; simpl; [done|].
  destruct (isspace c) eqn:Hc; [done|]. simpl. by rewrite Hc.
Qed.

Lemma rstrip_prefix s : exists w, s = rstrip s ++ w.
Proof.
  unfold rstrip. destruct (lstrip_suffix (rev s)) as [w Hw].
  exists (rev w). rewrite <- rev_app_distr, <- Hw. by rewrite rev_involutive.
Qed.

Lemma rstrip_length s : length (rstrip s) <= length s.
Proof.
  unfold rstrip. rewrite length_rev.
  etransitivity; [apply lstrip_length|]. by rewrite length_rev.
Qed.

Lemma strip_length s : length (strip s) <= length s.
Proof.
  unfold strip. etransitivity; [apply rstrip_length|apply lstrip_length].
Qed.

Lemma rstrip_idem s : rstrip (rstrip s) = rstrip s.
Proof. unfold rstrip. by rewrite rev_involutive, lstrip_idem. Qed.

(** Dropping trailing blanks does not uncover a leading blank. *)
Lemma lstrip_rstrip_fixed s : lstrip s = s -> lstrip (rstrip s) = rstrip s.
Proof.
  intros Hs. apply lstrip_fixed.
  destruct (rstrip_prefix s) as [w Hw].
  destruct (rstrip s) as [|c r]; [done|].
  apply lstrip_fixed in Hs. rewrite Hw in Hs. exact Hs.
Qed.

Lemma strip_idem s : strip (strip s) = strip s.
Proof.
  unfold strip.
  rewrite (lstrip_rstrip_fixed (lstrip s)) by apply lstrip_idem.
  apply rstrip_idem.
Qed.

(** A text of the same length as its stripped form is that form. *)
Lemma strip_same_length s : length (strip s) = length s -> strip s = s.
Proof.
  intros Hlen. unfold strip in *.
  destruct (lstrip_suffix s) as [w Hw].
  destruct (rstrip_prefix (lstrip s)) as [w' Hw'].
  pose proof (rstrip_length (lstrip s)) as H1.
  pose proof (lstrip_length s) as H2.
  assert (length w = 0) as Hz.
  { apply (f_equal length) in Hw. rewrite length_app in Hw. lia. }
  assert (length w' = 0) as Hz'.
  { apply (f_equal length) in Hw'. rewrite length_app in Hw'. lia. }
  destruct w; [|done]. destruct w'; [|done].
  rewrite app_nil_r in Hw'. simpl in Hw. congruence.
Qed.
End Strip.

(** ** Prefix tests and slices *)

Section Slices.
Implicit Types s p : list N.

Lemma startswith_length s p :
  startswith s p = true -> length p <= length s.
Proof.
  revert s. induction p as [|a p IH]; intros [|c s]; simpl;
    try done; try lia.
  intros [_ H]%andb_prop. apply IH in H. lia.
Qed.

Lemma endswith_length s p : endswith s p = true -> length p <= length s.
Proof.
  unfold endswith. intros H%startswith_length.
  by rewrite !length_rev in H.
Qed.

Lemma startswith_app s p q :
  startswith s (p ++ q) = true -> startswith s p = true.
Proof.
  revert s. induction p as [|a p IH]; intros [|c s]; simpl; try done.
  intros [H1 H2]%andb_prop. rewrite H1. simpl. by apply IH.
Qed.

Lemma slice_from_length n s : length (slice_from n s) = length s - n.
Proof. unfold slice_from. apply length_drop. Qed.

Lemma slice_to_minus_length n s :
  length (slice_to_minus n s) = length s - n.
Proof. unfold slice_to_minus. rewrite length_take. lia. Qed.
End Slices.

(** ** Removing the think blocks *)

Section ReSub.
Implicit Types s r : list N.

Lemma after_close_eq s :
  after_close s =
  if startswith s think_close then Some (drop 8 s)
  else match s with
       | [] => None
       | _ :: s' => after_close s'
       end.
Proof. by destruct s. Qed.

Lemma after_close_length s r :
  after_close s = Some r -> length r + 8 <= length s.
Proof.
  induction s as [|c s IH]; rewrite after_close_eq;
    destruct (startswith _ think_close) eqn:H; try done.
  - intros [= <-]. apply startswith_length in H.
    rewrite length_drop. change (length think_close) with 8 in H.
    simpl in H |- *. lia.
  - intros Hr%IH. simpl. lia.
Qed.

(** A match spans the two tags at least: 15 characters. *)
Lemma match_think_length s r :
  match_think s = Some r -> length r + 15 <= length s.
Proof.
  unfold match_think. destruct (startswith s think_open) eqn:H; [|done].
  intros Hr%after_close_length. rewrite length_drop in Hr.
  apply startswith_length in H. change (length think_open) with 7 in H.
  lia.
Qed.

(** The scan does not depend on the fuel once there is enough of it. *)
Lemma re_sub_fuel_enough n m s :
  length s <= n -> length s <= m -> re_sub_fuel n s = re_sub_fuel m s.
Proof.
  revert m s. induction n as [|n IH]; intros m s Hn Hm.
  - destruct s; [|simpl in Hn; lia]. by destruct m.
  - destruct m as [|m].
    + destruct s; [done|simpl in Hm; lia].
    + destruct s as [|c s]; [done|]. simpl in Hn, Hm.
      cbn [re_sub_fuel].
      destruct (match_think (c :: s)) as [r|] eqn:Hmt.
      * apply match_think_length in Hmt. simpl in Hmt.
        apply IH; lia.
      * f_equal. apply IH; lia.
Qed.

Lemma re_sub_think_nil : re_sub_think [] = [].
Proof. reflexivity. Qed.

(** The scan, one step at a time. *)
Lemma re_sub_think_cons c s :
  re_sub_think (c :: s) =
  match match_think (c :: s) with
  | Some r => re_sub_think r
  | None => c :: re_sub_think s
  end.
Proof.
  unfold re_sub_think. cbn [length re_sub_fuel].
  destruct (match_think (c :: s)) as [r|] eqn:Hmt.
  - apply match_think_length in Hmt. simpl in Hmt.
    apply re_sub_fuel_enough; lia.
  - reflexivity.
Qed.

Lemma has_think_cons c s :
  has_think (c :: s) =
  match match_think (c :: s) with
  | Some _ => true
  | None => has_think s
  end.
Proof. reflexivity. Qed.

(** Without a block the text is returned as it is. *)
Lemma re_sub_think_none s : has_think s = false -> re_sub_think s = s.
Proof.
  induction s as [|c s IH]; [done|].
  rewrite has_think_cons, re_sub_think_cons.
  destruct (match_think (c :: s)); [done|].
  intros H. by rewrite IH.
Qed.

Lemma re_sub_think_length s : length (re_sub_think s) <= length s.
Proof.
  remember (length s) as n eqn:Hn.
  revert s Hn. induction n as [n IH] using lt_wf_ind. intros s ->.
  destruct s as [|c s]; [done|].
  rewrite re_sub_think_cons.
  destruct (match_think (c :: s)) as [r|] eqn:Hmt.
  - apply match_think_length in Hmt.
    specialize (IH (length r) ltac:(lia) r eq_refl). lia.
  - simpl. specialize (IH (length s) ltac:(simpl; lia) s eq_refl). lia.
Qed.

(** With a block the text gets shorter. *)
Lemma re_sub_think_shorter s :
  has_think s = true -> length (re_sub_think s) < length s.
Proof.
  induction s as [|c s IH]; [done|].
  rewrite has_think_cons, re_sub_think_cons.
  destruct (match_think (c :: s)) as [r|] eqn:Hmt.
  - intros _. apply match_think_length in Hmt.
    pose proof (re_sub_think_length r). lia.
  - intros H%IH. simpl. lia.
Qed.
End ReSub.

(** ** The response clean-up *)

Section Sanitize.
Implicit Types s t : list N.

Lemma sanitize_steps s :
  sanitize s =
  strip (drop_trailing_fence (drop_leading_fence (re_sub_think (strip s)))).
Proof. reflexivity. Qed.

Lemma drop_leading_fence_length t :
  length (drop_leading_fence t) <= length t.
Proof.
  unfold drop_leading_fence.
  repeat case_match; rewrite ?slice_from_length; lia.
Qed.

Lemma drop_trailing_fence_length t :
  length (drop_trailing_fence t) <= length t.
Proof.
  unfold drop_trailing_fence.
  case_match; rewrite ?slice_to_minus_length; lia.
Qed.

Lemma drop_leading_fence_shorter t :
  startswith t fence = true -> length (drop_leading_fence t) < length t.
Proof.
  intros Hf. unfold drop_leading_fence. rewrite Hf.
  destruct (startswith t fence_python) eqn:Hp; rewrite slice_from_length.
  - apply startswith_length in Hp.
    change (length fence_python) with 9 in Hp. lia.
  - apply startswith_length in Hf. change (length fence) with 3 in Hf. lia.
Qed.

Lemma drop_leading_fence_none t :
  startswith t fence = false -> drop_leading_fence t = t.
Proof.
  intros Hf. unfold drop_leading_fence. rewrite Hf.
  destruct (startswith t fence_python) eqn:Hp; [|done].
  change fence_python with (fence ++ u "python") in Hp.
  apply startswith_app in Hp. congruence.
Qed.

Lemma drop_trailing_fence_shorter t :
  endswith t fence = true -> length (drop_trailing_fence t) < length t.
Proof.
  intros Hf. unfold drop_trailing_fence. rewrite Hf.
  rewrite slice_to_minus_length. apply endswith_length in Hf.
  change (length fence) with 3 in Hf. lia.
Qed.

(** The clean-up never lengthens a text. *)
Lemma sanitize_length s : length (sanitize s) <= length s.
Proof.
  rewrite sanitize_steps.
  pose proof (strip_length s).
  pose proof (re_sub_think_length (strip s)).
  pose proof (drop_leading_fence_length (re_sub_think (strip s))).
  pose proof (drop_trailing_fence_length
                (drop_leading_fence (re_sub_think (strip s)))).
  pose proof (strip_length
                (drop_trailing_fence
                   (drop_leading_fence (re_sub_think (strip s))))).
  lia.
Qed.

(** Its result carries no blank at either end. *)
Lemma sanitize_stripped s : strip (sanitize s) = sanitize s.
Proof. rewrite sanitize_steps. apply strip_idem. Qed.

(** A stripped text without markers is a fixed point. *)
Lemma sanitize_marker_free t :
  strip t = t -> marker_free t = true -> sanitize t = t.
Proof.
  intros Ht. unfold marker_free.
  intros [[Hk Hl%negb_true_iff]%andb_prop Hr%negb_true_iff]%andb_prop.
  apply negb_true_iff in Hk.
  rewrite sanitize_steps, Ht, (re_sub_think_none t Hk).
  rewrite (drop_leading_fence_none t Hl).
  unfold drop_trailing_fence. by rewrite Hr.
Qed.

(** A text that still carries a marker gets shorter. *)
Lemma sanitize_marker_shorter t :
  marker_free t = false -> length (sanitize t) < length t.
Proof.
  unfold marker_free. intros Hm.
  pose proof (sanitize_length t) as Hle.
  destruct (Nat.eq_dec (length (sanitize t)) (length t)) as [Heq|]; [|lia].
  exfalso. revert Heq. rewrite sanitize_steps.
  set (a := re_sub_think (strip t)).
  pose proof (strip_length t) as H0.
  pose proof (re_sub_think_length (strip t)) as H1. fold a in H1.
  pose proof (drop_leading_fence_length a) as H2.
  pose proof (drop_trailing_fence_length (drop_leading_fence a)) as H3.
  pose proof (strip_length (drop_trailing_fence (drop_leading_fence a)))
    as H4.
  intros Heq.
  assert (strip t = t) as Ht by (apply strip_same_length; lia).
  assert (length a = length t) as Ha by lia.
  destruct (has_think t) eqn:Hk.
  { pose proof (re_sub_think_shorter t Hk). subst a.
    rewrite Ht in Ha. lia. }
  assert (a = t) as -> by (subst a; rewrite Ht; by apply re_sub_think_none).
  destruct (startswith t fence) eqn:Hl.
  { pose proof (drop_leading_fence_shorter t Hl). lia. }
  rewrite (drop_leading_fence_none t Hl) in *.
  destruct (endswith t fence) eqn:Hr; [|done].
  pose proof (drop_trailing_fence_shorter t Hr). lia.
Qed.
End Sanitize.

(** The clean-up on the typical answers. *)
Example sanitize_plain :
  sanitize (u "  x = 1 " ++ LF) = u "x = 1".
Proof. by vm_compute. Qed.

Example sanitize_think_block :
  sanitize (u "<think>plan" ++ LF ++ u "more</think>" ++ LF ++ u "x = 1")
  = u "x = 1".
Proof. by vm_compute. Qed.

Example sanitize_fence_python :
  sanitize (u "```python" ++ LF ++ u "x = 1" ++ LF ++ u "```") = u "x = 1".
Proof. by vm_compute. Qed.

Example sanitize_fence_plain :
  sanitize (u "```" ++ LF ++ u "x = 1" ++ LF ++ u "```") = u "x = 1".
Proof. by vm_compute. Qed.

Example sanitize_nested_think :
  sanitize (u "<think>a<think>b</think>c</think>") = u "c</think>".
Proof. by vm_compute. Qed.

Example sanitize_unterminated_think :
  sanitize (u "<think>plan without end") = u "<think>plan without end".
Proof. by vm_compute. Qed.

(** C3, as amended: sanitizing an already sanitized text returns it
    unchanged exactly when that text carries no marker any more, that is no
    [<think>...</think>] block and no fence at either end. *)
Theorem sanitize_idempotent_iff (s : list N) :
  sanitize (sanitize s) = sanitize s <-> marker_free (sanitize s) = true.
Proof.
  split.
  - intros Heq. destruct (marker_free (sanitize s)) eqn:Hm; [done|].
    apply sanitize_marker_shorter in Hm. rewrite Heq in Hm. lia.
  - apply sanitize_marker_free, sanitize_stripped.
Qed.

(** C3, as stated, fails: a doubled opening fence loses one fence per pass,
    so the second pass changes the result of the first. *)
Lemma sanitize_not_idempotent :
  sanitize (u "``````x") = u "```x"
  /\ sanitize (sanitize (u "``````x")) = u "x"
  /\ sanitize (sanitize (u "``````x")) <> sanitize (u "``````x").
Proof. vm_compute. repeat split; discriminate. Qed.

(** ** Running the computations *)

Ltac unfold_m :=
  unfold try_except, mbind, M_bind, bind, print, lift, mret, M_ret, ret,
    mkdir, write_file, read_file.

Ltac tidy_output := cbn [stdout fs fst snd]; rewrite <- ?app_assoc; cbn [app].

Lemma isinstance_SyntaxError_Exception e :
  isinstance_SyntaxError e = true -> isinstance_Exception e = true.
Proof. unfold isinstance_SyntaxError, isinstance_Exception. by destruct (exn_cls e). Qed.

Lemma is_warning_warning_sign line : is_warning (warning_sign ++ line) = true.
Proof. reflexivity. Qed.

Lemma is_warning_cross_mark line : is_warning (cross_mark ++ line) = true.
Proof. reflexivity. Qed.

(** ** The enhancement *)

Section Enhance.
Variable E : env.
Variable self : RobustFastAPIGenerator.
Variables base_code requirements : list N.
Implicit Types (st : state) (e : exn) (content : list N).

(** The model client raises below [Exception]: outer handler. *)
Lemma enhance_llm_raises st e :
  llm_invoke E (model_name self) (prompt_of base_code requirements) = Raise e ->
  isinstance_Exception e = true ->
  enhance_with_llm E self base_code requirements st =
  (Ok base_code,
   State (stdout st ++ [wrench ++ u " Enhancing with LLM...";
                        warning_sign ++ u "  Enhancement failed: " ++ exn_str e;
                        u "Using base template instead..."]) (fs st)).
Proof.
  intros Hllm He. unfold enhance_with_llm. unfold_m.
  rewrite Hllm. cbn [dispatch]. rewrite He. by tidy_output.
Qed.

(** The model client raises outside [Exception]: nothing handles it. *)
Lemma enhance_llm_interrupted st e :
  llm_invoke E (model_name self) (prompt_of base_code requirements) = Raise e ->
  isinstance_Exception e = false ->
  enhance_with_llm E self base_code requirements st =
  (Raise e, State (stdout st ++ [wrench ++ u " Enhancing with LLM..."]) (fs st)).
Proof.
  intros Hllm He. unfold enhance_with_llm. unfold_m.
  rewrite Hllm. cbn [dispatch]. rewrite He. by tidy_output.
Qed.

(** [compile] raises [SyntaxError]: inner handler. *)
Lemma enhance_syntax_error st content e :
  llm_invoke E (model_name self) (prompt_of base_code requirements)
  = Ok content ->
  py_compile E (sanitize content) (u "<string>") = Raise e ->
  isinstance_SyntaxError e = true ->
  enhance_with_llm E self base_code requirements st =
  (Ok base_code,
   State (stdout st ++ [wrench ++ u " Enhancing with LLM...";
                        warning_sign ++ u "  Enhanced code has syntax error: "
                          ++ exn_str e;
                        u "Using base template instead..."]) (fs st)).
Proof.
  intros Hllm Hc He. unfold enhance_with_llm. unfold_m.
  rewrite Hllm, Hc. cbn [dispatch]. rewrite He. by tidy_output.
Qed.

(** [compile] raises something else below [Exception]: outer handler. *)
Lemma enhance_compile_raises st content e :
  llm_invoke E (model_name self) (prompt_of base_code requirements)
  = Ok content ->
  py_compile E (sanitize content) (u "<string>") = Raise e ->
  isinstance_SyntaxError e = false ->
  isinstance_Exception e = true ->
  enhance_with_llm E self base_code requirements st =
  (Ok base_code,
   State (stdout st ++ [wrench ++ u " Enhancing with LLM...";
                        warning_sign ++ u "  Enhancement failed: " ++ exn_str e;
                        u "Using base template instead..."]) (fs st)).
Proof.
  intros Hllm Hc Hs He. unfold enhance_with_llm. unfold_m.
  rewrite Hllm, Hc. cbn [dispatch]. rewrite Hs, He. by tidy_output.
Qed.

(** [compile] accepts the cleaned answer. *)
Lemma enhance_valid st content :
  llm_invoke E (model_name self) (prompt_of base_code requirements)
  = Ok content ->
  py_compile E (sanitize content) (u "<string>") = Ok tt ->
  enhance_with_llm E self base_code requirements st =
  (Ok (sanitize content),
   State (stdout st ++ [wrench ++ u " Enhancing with LLM...";
                        check_mark ++ u " Enhanced code is valid!"]) (fs st)).
Proof.
  intros Hllm Hc. unfold enhance_with_llm. unfold_m.
  rewrite Hllm, Hc. by tidy_output.
Qed.

(** The enhancement reads nothing of the state and only prints. *)
Lemma enhance_shape :
  exists r lines, forall st,
    enhance_with_llm E self base_code requirements st
    = (r, State (stdout st ++ lines) (fs st)).
Proof.
  destruct (llm_invoke E (model_name self) (prompt_of base_code requirements))
    as [content|e] eqn:Hllm.
  - destruct (py_compile E (sanitize content) (u "<string>")) as [[]|e] eqn:Hc.
    + eexists _, _. intros st. by apply enhance_valid.
    + destruct (isinstance_SyntaxError e) eqn:Hs.
      * eexists _, _. intros st. by eapply enhance_syntax_error.
      * destruct (isinstance_Exception e) eqn:He.
        -- eexists _, _. intros st. by eapply enhance_compile_raises.
        -- eexists (Raise e), _. intros st.
           unfold enhance_with_llm. unfold_m.
           rewrite Hllm, Hc. cbn [dispatch]. rewrite Hs, He. by tidy_output.
  - destruct (isinstance_Exception e) eqn:He.
    + eexists _, _. intros st. by apply enhance_llm_raises.
    + eexists _, _. intros st. by apply enhance_llm_interrupted.
Qed.

(** With nothing raised outside [Exception] the enhancement returns. *)
Lemma enhance_returns :
  raises_only_Exception E ->
  exists code lines, forall st,
    enhance_with_llm E self base_code requirements st
    = (Ok code, State (stdout st ++ lines) (fs st)).
Proof.
  intros (Hl & Hc & _).
  destruct (llm_invoke E (model_name self) (prompt_of base_code requirements))
    as [content|e] eqn:Hllm.
  - destruct (py_compile E (sanitize content) (u "<string>")) as [[]|e] eqn:Hpc.
    + eexists _, _. intros st. by apply enhance_valid.
    + pose proof (Hc _ _ _ Hpc) as He.
      destruct (isinstance_SyntaxError e) eqn:Hs.
      * eexists _, _. intros st. by eapply enhance_syntax_error.
      * eexists _, _. intros st. by eapply enhance_compile_raises.
  - pose proof (Hl _ _ _ Hllm) as He.
    eexists _, _. intros st. by apply enhance_llm_raises.
Qed.
End Enhance.

(** ** The smoke test *)

Section SmokeTest.
Variable E : env.
Variable self : RobustFastAPIGenerator.
Implicit Types (st : state) (p : list (list N)).

Ltac smoke_fails e :=
  right; split;
  [ intros (code' & venv' & pip' & imp' & ? & ? & ? & ? & ? & ? & ?);
    unfold venv_args, pip_args, import_args in *; congruence
  | cbn [dispatch];
    destruct (isinstance_SyntaxError e) eqn:?;
    [ | match goal with H : isinstance_Exception e = true |- _ => rewrite H end ];
    tidy_output; eexists _, _; (split; [reflexivity|]); by split ].

(** Either every step goes through and the test says so, or the last line
    printed is a warning; in both cases the test returns. *)
Lemma test_project_cases p st :
  raises_only_Exception E ->
  (smoke_test_passes E p st
   /\ test_project E self p st =
      (Ok tt,
       State (stdout st ++ [test_tube ++ u " Testing generated code...";
                            check_mark ++ u " Python syntax is valid!";
                            check_mark ++ u " Code imports successfully!"])
         (fs st)))
  \/ (~ smoke_test_passes E p st
      /\ exists lines w,
          test_project E self p st
          = (Ok tt, State (stdout st ++ lines) (fs st))
          /\ last lines = Some w /\ is_warning w = true).
Proof.
  intros (_ & Hc & Hr & Hnf & Hsp).
  unfold test_project. unfold_m. cbn [stdout fs].
  destruct (read_fault E (p // u "main.py")) as [e|] eqn:Hread.
  { pose proof (Hr _ _ Hread). smoke_fails e. }
  destruct (fs st !! (p // u "main.py")) as [code|] eqn:Hfile.
  2:{ pose proof (Hnf (p // u "main.py")).
      smoke_fails (file_not_found E (p // u "main.py")). }
  destruct (py_compile E code (path_str (p // u "main.py"))) as [[]|e] eqn:Hpc.
  2:{ pose proof (Hc _ _ _ Hpc). smoke_fails e. }
  destruct (subprocess_run E
              [u "python3"; u "-m"; u "venv"; path_str (p // u "venv")]
              true p) as [venv|e] eqn:Hvenv.
  2:{ pose proof (Hsp _ _ _ _ Hvenv). smoke_fails e. }
  destruct (subprocess_run E
              [path_str (p // u "venv" // u "bin" // u "pip");
               u "install"; u "-r"; u "requirements.txt"]
              true p) as [pip|e] eqn:Hpip.
  2:{ pose proof (Hsp _ _ _ _ Hpip). smoke_fails e. }
  destruct (subprocess_run E
              [path_str (p // u "venv" // u "bin" // u "python"); u "-c";
               u "import main; print('" ++ check_mark
                 ++ u " Import successful')"]
              false p) as [imp|e] eqn:Himp.
  2:{ pose proof (Hsp _ _ _ _ Himp). smoke_fails e. }
  destruct (returncode imp =? 0)%Z eqn:Hrc.
  - left. split.
    + exists code, venv, pip, imp. repeat split; try done. by apply Z.eqb_eq.
    + by tidy_output.
  - right. split.
    + intros (code' & venv' & pip' & imp' & ? & ? & ? & ? & ? & Hi & Hz).
      unfold import_args in Hi. rewrite Himp in Hi. injection Hi as <-.
      apply Z.eqb_neq in Hrc. done.
    + tidy_output. eexists _, _. split; [reflexivity|]. by split.
Qed.

(** The smoke test returns and leaves the files alone. *)
Lemma test_project_shape p st :
  raises_only_Exception E ->
  exists lines,
    test_project E self p st = (Ok tt, State (stdout st ++ lines) (fs st)).
Proof.
  intros HE. destruct (test_project_cases p st HE)
    as [[_ H]|[_ (lines & w & H & _)]]; eauto.
Qed.
End SmokeTest.

(** ** Writing the project *)

Section CreateProject.
Variable E : env.
Variable self : RobustFastAPIGenerator.
Implicit Types (st : state) (requirements project_name code : list N).

Lemma project_files_distinct (p : list (list N)) :
  p // u "main.py" <> p // u "requirements.txt"
  /\ p // u "main.py" <> p // u "README.md"
  /\ p // u "requirements.txt" <> p // u "README.md".
Proof.
  unfold path_div. repeat split; intros H%app_inv_head; discriminate H.
Qed.

(** What the enhancement hands over does not depend on the state. *)
Lemma delivers_run requirements code st :
  delivers E self requirements code ->
  exists lines,
    enhance_with_llm E self (create_working_fastapi_app self requirements)
      requirements st
    = (Ok code, State (stdout st ++ lines) (fs st)).
Proof.
  intros Hd.
  destruct (enhance_shape E self (create_working_fastapi_app self requirements)
              requirements) as (r & lines & Hsh).
  specialize (Hd st). rewrite Hsh in Hd. cbn [fst] in Hd. subst r.
  by exists lines.
Qed.

(** A writable project: the call returns the directory and the state holds
    the three files. *)
Lemma create_project_run requirements project_name code st :
  writable E (Path (u "output/" ++ project_name)) ->
  raises_only_Exception E ->
  delivers E self requirements code ->
  exists lines,
    create_project E self requirements project_name st =
    (Ok (path_str (Path (u "output/" ++ project_name))),
     State (stdout st ++ lines)
       (<[Path (u "output/" ++ project_name) // u "README.md" :=
            join LF (readme_parts requirements project_name)]>
          (<[Path (u "output/" ++ project_name) // u "requirements.txt" :=
               requirements_txt]>
             (<[Path (u "output/" ++ project_name) // u "main.py" := code]>
                (fs st))))).
Proof.
  intros (Hmk & Hw1 & Hw2 & Hw3) HE Hd.
  unfold create_project. unfold_m. cbn [stdout fs].
  rewrite Hmk.
  match goal with
  | |- context [enhance_with_llm E self ?b ?r ?s] =>
      destruct (delivers_run r code s Hd) as (l1 & ->)
  end.
  rewrite Hw1, Hw2, Hw3. cbn [stdout fs].
  match goal with
  | |- context [test_project E self ?p ?s] =>
      destruct (test_project_shape E self p s HE) as (l2 & ->)
  end.
  tidy_output. eexists. reflexivity.
Qed.
(** The first refusal of the file layer leaves the call as it is raised. *)
Lemma create_project_raises requirements project_name e st :
  first_fs_error E self requirements project_name e ->
  fst (create_project E self requirements project_name st) = Raise e.
Proof.
  intros [Hmk|code Hmk Hd Hw1|code Hmk Hd Hw1 Hw2|code Hmk Hd Hw1 Hw2 Hw3];
    unfold create_project; unfold_m; cbn [stdout fs]; rewrite Hmk;
    [done|..];
    match goal with
    | |- context [enhance_with_llm E self ?b ?r ?s] =>
        destruct (delivers_run r code s Hd) as (l1 & ->)
    end;
    rewrite Hw1; [done|..]; cbn [stdout fs]; rewrite Hw2; [done|];
    cbn [stdout fs]; by rewrite Hw3.
Qed.

(** With nothing raised outside [Exception] the enhancement hands over
    some text. *)
Lemma delivers_exists requirements :
  raises_only_Exception E -> exists code, delivers E self requirements code.
Proof.
  intros HE.
  destruct (enhance_returns E self
              (create_working_fastapi_app self requirements) requirements HE)
    as (code & lines & H).
  exists code. intros st. by rewrite H.
Qed.
End CreateProject.

(** ** The sample environments *)

Lemma sample_env_raises_only_Exception answer mk :
  (forall e, answer = Raise e -> isinstance_Exception e = true) ->
  raises_only_Exception (sample_env answer mk).
Proof.
  intros Hanswer. repeat split; cbn.
  - intros _ _ e. apply Hanswer.
  - intros source filename e. unfold sample_compile.
    case_decide; [|done]. by intros [= <-].
  - done.
  - done.
Qed.

Lemma sample_env_writable answer p : writable (sample_env answer None) p.
Proof. by repeat split. Qed.

(** * Main results *)

(** C1: when the model client raises (a connectivity or service fault, or
    anything else below [Exception]) or [compile] rejects the cleaned
    answer, [enhance_with_llm] returns the base template it was given,
    unchanged; it raises nothing, prints a warning and touches no file. *)
Theorem enhance_with_llm_falls_back
    (E : env) (self : RobustFastAPIGenerator)
    (base_code requirements : list N) (st : state) :
  enhancement_fails E self base_code requirements ->
  exists w,
    enhance_with_llm E self base_code requirements st =
    (Ok base_code,
     State (stdout st ++ [wrench ++ u " Enhancing with LLM..."; w;
                          u "Using base template instead..."]) (fs st))
    /\ is_warning w = true.
Proof.
  intros [(e & Hllm & He)|(content & e & Hllm & Hc & He)].
  - eexists. split; [by apply enhance_llm_raises|reflexivity].
  - destruct (isinstance_SyntaxError e) eqn:Hs.
    + eexists. split; [by eapply enhance_syntax_error|reflexivity].
    + eexists. split; [by eapply enhance_compile_raises|reflexivity].
Qed.

Lemma enhance_with_llm_falls_back_witness :
  enhancement_fails (sample_env (Raise connection_refused) None)
    demo_generator template (u "Task manager API with CRUD")
  /\ fst (enhance_with_llm (sample_env (Raise connection_refused) None)
            demo_generator template (u "Task manager API with CRUD")
            empty_state)
     = Ok template.
Proof.
  assert (enhancement_fails (sample_env (Raise connection_refused) None)
            demo_generator template (u "Task manager API with CRUD")) as H.
  { left. exists connection_refused. split; reflexivity. }
  split; [exact H|].
  destruct (enhance_with_llm_falls_back _ _ _ _ empty_state H) as (w & -> & _).
  reflexivity.
Defined.

(** An answer that does not parse: the template comes back. *)
Example enhance_with_llm_syntax_error :
  enhance_with_llm (sample_env (Ok (u "```" ++ LF ++ u "def (" ++ LF ++ u "```"))
                      None)
    demo_generator template (u "Task manager API with CRUD") empty_state
  = (Ok template,
     State [wrench ++ u " Enhancing with LLM...";
            warning_sign ++ u "  Enhanced code has syntax error: "
              ++ u "invalid syntax (<string>, line 1)";
            u "Using base template instead..."] ∅).
Proof.
  rewrite (enhance_syntax_error _ _ _ _ _
             (u "```" ++ LF ++ u "def (" ++ LF ++ u "```")
             (Exn SyntaxError (u "invalid syntax (<string>, line 1)")));
    [reflexivity|reflexivity|by vm_compute|reflexivity].
Qed.

(** C2: when [compile] accepts the cleaned answer of the model,
    [enhance_with_llm] returns that cleaned answer, not the template. *)
Theorem enhance_with_llm_returns_enhancement
    (E : env) (self : RobustFastAPIGenerator)
    (base_code requirements content : list N) (st : state) :
  llm_invoke E (model_name self) (prompt_of base_code requirements)
  = Ok content ->
  py_compile E (sanitize content) (u "<string>") = Ok tt ->
  enhance_with_llm E self base_code requirements st =
  (Ok (sanitize content),
   State (stdout st ++ [wrench ++ u " Enhancing with LLM...";
                        check_mark ++ u " Enhanced code is valid!"]) (fs st)).
Proof.
  intros Hllm Hcompile.
  unfold enhance_with_llm. unfold_m.
  (* the model answers: no exception reaches the outer handler *)
  rewrite Hllm.
  (* [compile] returns: the inner [try] ends in [return enhanced_code] *)
  rewrite Hcompile.
  by tidy_output.
Qed.

Lemma enhance_with_llm_returns_enhancement_witness :
  fst (enhance_with_llm
         (sample_env (Ok (u "```python" ++ LF ++ u "x = 1" ++ LF ++ u "```"))
            None)
         demo_generator template (u "Task manager API with CRUD") empty_state)
  = Ok (u "x = 1").
Proof.
  rewrite (enhance_with_llm_returns_enhancement _ _ _ _
             (u "```python" ++ LF ++ u "x = 1" ++ LF ++ u "```"));
    [reflexivity|reflexivity|by vm_compute].
Defined.

(** C10: when the answer of the model cleans up to the empty text, and
    [compile] accepts the empty source (as Python's does),
    [enhance_with_llm] returns the empty text and not the template; called
    from [create_project] on a writable project, the main.py written is
    empty. *)
Theorem enhance_with_llm_empty_answer
    (E : env) (self : RobustFastAPIGenerator)
    (base_code requirements content : list N) :
  llm_invoke E (model_name self) (prompt_of base_code requirements)
  = Ok content ->
  sanitize content = [] ->
  py_compile E [] (u "<string>") = Ok tt ->
  (forall st,
      enhance_with_llm E self base_code requirements st =
      (Ok [],
       State (stdout st ++ [wrench ++ u " Enhancing with LLM...";
                            check_mark ++ u " Enhanced code is valid!"])
         (fs st)))
  /\ (base_code = create_working_fastapi_app self requirements ->
      forall project_name st,
        writable E (Path (u "output/" ++ project_name)) ->
        raises_only_Exception E ->
        exists st',
          create_project E self requirements project_name st
          = (Ok (path_str (Path (u "output/" ++ project_name))), st')
          /\ fs st' !! (Path (u "output/" ++ project_name) // u "main.py")
             = Some []).
Proof.
  intros Hllm Hempty Hc.
  assert (forall st,
             enhance_with_llm E self base_code requirements st =
             (Ok [],
              State (stdout st ++ [wrench ++ u " Enhancing with LLM...";
                                   check_mark ++ u " Enhanced code is valid!"])
                (fs st))) as Hrun.
  { intros st. rewrite <- Hempty. apply enhance_valid; [done|].
    by rewrite Hempty. }
  split; [exact Hrun|].
  intros -> project_name st Hw HE.
  assert (delivers E self requirements []) as Hd.
  { intros st0. by rewrite Hrun. }
  destruct (create_project_run E self requirements project_name [] st Hw HE Hd)
    as (lines & ->).
  eexists. split; [reflexivity|]. cbn [fs].
  destruct (project_files_distinct (Path (u "output/" ++ project_name)))
    as (H1 & H2 & _).
  rewrite lookup_insert_ne by done.
  rewrite lookup_insert_ne by done.
  apply lookup_insert_eq.
Qed.

Lemma enhance_with_llm_empty_answer_witness :
  sanitize (u "<think>x</think>```python" ++ LF ++ u "```") = []
  /\ exists st',
      create_project
        (sample_env (Ok (u "<think>x</think>```python" ++ LF ++ u "```")) None)
        demo_generator (u "Task manager API with CRUD") (u "demo") empty_state
      = (Ok (u "output/demo"), st')
      /\ fs st' !! [u "output"; u "demo"; u "main.py"] = Some [].
Proof.
  assert (sanitize (u "<think>x</think>```python" ++ LF ++ u "```") = [])
    as Hs by (by vm_compute).
  split; [exact Hs|].
  apply (proj2 (enhance_with_llm_empty_answer
                  (sample_env
                     (Ok (u "<think>x</think>```python" ++ LF ++ u "```")) None)
                  demo_generator template (u "Task manager API with CRUD")
                  (u "<think>x</think>```python" ++ LF ++ u "```")
                  eq_refl Hs eq_refl)
               eq_refl (u "demo") empty_state).
  - apply sample_env_writable.
  - by apply sample_env_raises_only_Exception.
Defined.

(** C5: [create_project] does not catch what the file layer raises: the
    first refusal, at the directory or at main.py, requirements.txt or
    README.md, leaves the call as the exception it is. *)
Theorem create_project_propagates_fs_error
    (E : env) (self : RobustFastAPIGenerator)
    (requirements project_name : list N) (e : exn) (st : state) :
  first_fs_error E self requirements project_name e ->
  fst (create_project E self requirements project_name st) = Raise e.
Proof.
  intros Hfirst. unfold create_project. unfold_m. cbn [stdout fs].
  destruct Hfirst
    as [Hmk|code Hmk Hd Hw1|code Hmk Hd Hw1 Hw2|code Hmk Hd Hw1 Hw2 Hw3];
    rewrite Hmk; [done|..];
    match goal with
    | |- context [enhance_with_llm E self ?b ?r ?s] =>
        destruct (delivers_run E self r code s Hd) as (l1 & ->)
    end.
  - (* main.py is refused *)
    by rewrite Hw1.
  - (* requirements.txt is refused *)
    rewrite Hw1. cbn [stdout fs]. by rewrite Hw2.
  - (* README.md is refused *)
    rewrite Hw1. cbn [stdout fs]. rewrite Hw2. cbn [stdout fs].
    by rewrite Hw3.
Qed.

Lemma create_project_propagates_fs_error_witness :
  fst (create_project (sample_env (Ok (u "x = 1")) (Some permission_denied))
         demo_generator (u "Task manager API with CRUD") (u "demo")
         empty_state)
  = Raise permission_denied.
Proof.
  apply create_project_propagates_fs_error.
  apply fails_mkdir. reflexivity.
Defined.

(** C4, as stated, fails: when the system refuses the project directory the
    exception leaves [main] and the process ends with status 1. *)
Lemma main_exits_nonzero :
  fst (run_main (sample_env (Ok (u "x = 1")) (Some permission_denied))
         empty_state) = 1%Z
  /\ fst (run_main (sample_env (Ok (u "x = 1")) (Some permission_denied))
            empty_state) <> 0%Z.
Proof. by vm_compute. Qed.

(** *** A standard output that takes every line *)

Lemma bind_ext {A B} (m1 m2 : M A) (k1 k2 : A -> M B) st :
  m1 st = m2 st -> (forall a st', k1 a st' = k2 a st') ->
  bind m1 k1 st = bind m2 k2 st.
Proof.
  intros Hm Hk. unfold bind. rewrite Hm.
  destruct (m2 st) as [[a|e] st']; [apply Hk|done].
Qed.

Lemma try_except_ext {A} (body1 body2 : M A) clauses1 clauses2 st :
  body1 st = body2 st ->
  (forall e st', dispatch clauses1 e st' = dispatch clauses2 e st') ->
  try_except body1 clauses1 st = try_except body2 clauses2 st.
Proof.
  intros Hb Hc. unfold try_except. rewrite Hb.
  destruct (body2 st) as [[a|e] st']; [done|apply Hc].
Qed.

(** On such an output the program of [Console] runs as the program
    above. *)
Section ConsoleAccepts.
Variable C : console.
Hypothesis Haccepts : stdout_accepts C.

Lemma print_accepts line st : Console.print C line st = print line st.
Proof. unfold Console.print, print. by rewrite Haccepts. Qed.

Ltac same_run :=
  unfold mbind, M_bind, mret, M_ret;
  repeat first
    [ reflexivity
    | apply print_accepts
    | apply bind_ext; [|intros ? ?; cbn beta zeta]
    | apply try_except_ext; [|intros ? ?; cbn [dispatch]]
    | match goal with
      | |- context [if ?b then _ else _] => destruct b
      end ].

Lemma enhance_with_llm_accepts E self base_code requirements st :
  Console.enhance_with_llm C E self base_code requirements st
  = enhance_with_llm E self base_code requirements st.
Proof. unfold Console.enhance_with_llm, enhance_with_llm. same_run. Qed.

Lemma test_project_accepts E self project_path st :
  Console.test_project C E self project_path st
  = test_project E self project_path st.
Proof. unfold Console.test_project, test_project. same_run. Qed.

Lemma create_project_accepts E self requirements project_name st :
  Console.create_project C E self requirements project_name st
  = create_project E self requirements project_name st.
Proof.
  unfold Console.create_project, create_project.
  unfold mbind, M_bind, mret, M_ret. cbn zeta.
  repeat first
    [ reflexivity
    | apply print_accepts
    | apply enhance_with_llm_accepts
    | apply test_project_accepts
    | apply bind_ext; [|intros ? ?; cbn beta zeta] ].
Qed.

Lemma main_accepts E st : Console.main C E st = main E st.
Proof.
  unfold Console.main, main, Console.__init__, __init__.
  unfold mbind, M_bind, mret, M_ret. cbn zeta.
  repeat first
    [ reflexivity
    | apply print_accepts
    | apply create_project_accepts
    | apply bind_ext; [|intros ? ?; cbn beta zeta] ].
Qed.
End ConsoleAccepts.

(** *** The lines of a run of [main] *)

(** The enhancement returns, and a failure shows in its three lines. *)
Lemma enhance_run_warns E self base_code requirements :
  raises_only_Exception E ->
  exists code lines,
    (forall st,
        enhance_with_llm E self base_code requirements st
        = (Ok code, State (stdout st ++ lines) (fs st)))
    /\ (enhancement_fails E self base_code requirements ->
        exists w,
          lines = [wrench ++ u " Enhancing with LLM..."; w;
                   u "Using base template instead..."]
          /\ is_warning w = true).
Proof.
  intros (Hl & Hc & _).
  destruct (llm_invoke E (model_name self) (prompt_of base_code requirements))
    as [content|e] eqn:Hllm.
  - destruct (py_compile E (sanitize content) (u "<string>")) as [[]|e] eqn:Hpc.
    + eexists _, _. split; [intros st; by apply enhance_valid|].
      intros [(e & He & _)|(content' & e & Hllm' & Hpc' & _)]; congruence.
    + pose proof (Hc _ _ _ Hpc) as He.
      destruct (isinstance_SyntaxError e) eqn:Hs.
      * eexists _, _. split; [intros st; by eapply enhance_syntax_error|].
        intros _. by eexists.
      * eexists _, _. split; [intros st; by eapply enhance_compile_raises|].
        intros _. by eexists.
  - pose proof (Hl _ _ _ Hllm) as He.
    eexists _, _. split; [intros st; by apply enhance_llm_raises|].
    intros _. by eexists.
Qed.

Lemma smoke_test_passes_fs E p st1 st2 :
  fs st1 = fs st2 -> smoke_test_passes E p st1 -> smoke_test_passes E p st2.
Proof. unfold smoke_test_passes. by intros ->. Qed.

(** A run on a writable project: [main] returns; a failed enhancement
    leaves its warning followed by the fallback line, and a failed smoke
    test leaves its warning right before the closing lines. *)
Lemma main_run E st :
  writable E (Path (u "output/" ++ u "robust_task_manager")) ->
  raises_only_Exception E ->
  exists lines st',
    main E st = (Ok tt, st')
    /\ stdout st' = stdout st ++ lines
    /\ (enhancement_fails E (Generator (u "qwen3:8b"))
          (create_working_fastapi_app (Generator (u "qwen3:8b"))
             main_requirements)
          main_requirements ->
        exists before w after,
          lines = before ++ [w; u "Using base template instead..."] ++ after
          /\ is_warning w = true)
    /\ (~ smoke_test_passes E (Path (u "output/" ++ u "robust_task_manager"))
          st' ->
        exists before w,
          lines = before ++ w :: main_closing_lines
          /\ is_warning w = true).
Proof.
  intros (Hmk & Hw1 & Hw2 & Hw3) HE.
  destruct (enhance_run_warns E (Generator (u "qwen3:8b"))
              (create_working_fastapi_app (Generator (u "qwen3:8b"))
                 main_requirements) main_requirements HE)
    as (code & l_enh & Hrun & Hwarn).
  unfold main, __init__, create_project. unfold_m. cbn [stdout fs].
  rewrite Hmk, Hrun, Hw1, Hw2, Hw3. cbn [stdout fs].
  match goal with
  | |- context [test_project E ?g ?p ?s] =>
      destruct (test_project_cases E g p s HE)
        as [[Hpass ->]|[Hfail (l_test & w & -> & Hlast & Hw)]]
  end; tidy_output; eexists _, _; (split; [reflexivity|]); cbn [stdout];
    (split; [reflexivity|]); split.
  - intros (w & -> & Hw)%Hwarn.
    eexists [_; _; _; _; _], w, _. split; [reflexivity|done].
  - intros Hfail. destruct Hfail.
    eapply smoke_test_passes_fs; [|exact Hpass]. reflexivity.
  - intros (w' & -> & Hw')%Hwarn.
    eexists [_; _; _; _; _], w', _. split; [reflexivity|done].
  - intros _. apply last_Some in Hlast as [l' ->].
    eexists (_ :: _ :: _ :: _ :: (l_enh ++ _ :: _ :: _ :: l')), w.
    split; [|done]. cbn [app]. by rewrite <- !app_assoc.
Qed.

(** C4, as amended: the process exits with status 0 whenever the standard
    output takes every line, the project directory and its three files can
    be written and nothing is raised outside [Exception]; a failure of the
    model client or of the validation then leaves a warning line followed
    by the fallback line, and a failed step of the smoke test leaves a
    warning line right before the closing lines of [main].  A refusal of
    the file layer while the project is written, or a standard output that
    refuses the first line ([__init__] prints it outside every [try]), ends
    the process with a status other than 0. *)
Theorem main_exit_status (C : console) (E : env) (st : state) :
  (stdout_accepts C ->
   writable E (Path (u "output/" ++ u "robust_task_manager")) ->
   raises_only_Exception E ->
   exists lines st',
     Console.run_main C E st = (0%Z, st')
     /\ stdout st' = stdout st ++ lines
     /\ (enhancement_fails E (Generator (u "qwen3:8b"))
           (create_working_fastapi_app (Generator (u "qwen3:8b"))
              main_requirements)
           main_requirements ->
         exists before w after,
           lines = before ++ [w; u "Using base template instead..."] ++ after
           /\ is_warning w = true)
     /\ (~ smoke_test_passes E (Path (u "output/" ++ u "robust_task_manager"))
           st' ->
         exists before w,
           lines = before ++ w :: main_closing_lines
           /\ is_warning w = true))
  /\ (forall e,
        stdout_accepts C ->
        first_fs_error E (Generator (u "qwen3:8b")) main_requirements
          (u "robust_task_manager") e ->
        fst (Console.run_main C E st) = exit_status (Raise e)
        /\ exit_status (Raise e) <> 0%Z)
  /\ (forall e,
        stdout_fault C (robot ++ u " Initializing with " ++ u "qwen3:8b")
        = Some e ->
        fst (Console.run_main C E st) = exit_status (Raise e)
        /\ exit_status (Raise e) <> 0%Z).
Proof.
  assert (forall e, exit_status (Raise e) <> 0%Z) as Hnonzero.
  { intros e. unfold exit_status. by destruct (exn_cls e). }
  split; [|split].
  - (* everything goes through *)
    intros HC Hw HE. unfold Console.run_main. rewrite (main_accepts C HC).
    destruct (main_run E st Hw HE) as (lines & st' & -> & Hout & Henh & Hsmoke).
    by exists lines, st'.
  - (* the file layer refuses *)
    intros e HC He. split; [|done].
    unfold Console.run_main. rewrite (main_accepts C HC).
    unfold main, __init__. unfold_m. cbn [stdout fs].
    match goal with
    | |- context [create_project E ?g ?r ?n ?s] =>
        pose proof (create_project_raises E g r n e s He) as Hr;
        destruct (create_project E g r n s) as [r0 s0]
    end.
    cbn [fst] in Hr. by subst r0.
  - (* the standard output refuses the first line *)
    intros e Hfirst. split; [|done].
    unfold Console.run_main, Console.main, Console.__init__, Console.print.
    unfold_m. by rewrite Hfirst.
Qed.

Lemma main_exit_status_witness :
  exists lines st',
    Console.run_main utf8_console (sample_env (Raise connection_refused) None)
      empty_state = (0%Z, st')
    /\ stdout st' = stdout empty_state ++ lines
    /\ (enhancement_fails (sample_env (Raise connection_refused) None)
          (Generator (u "qwen3:8b"))
          (create_working_fastapi_app (Generator (u "qwen3:8b"))
             main_requirements)
          main_requirements ->
        exists before w after,
          lines = before ++ [w; u "Using base template instead..."] ++ after
          /\ is_warning w = true)
    /\ (~ smoke_test_passes (sample_env (Raise connection_refused) None)
          (Path (u "output/" ++ u "robust_task_manager")) st' ->
        exists before w,
          lines = before ++ w :: main_closing_lines
          /\ is_warning w = true).
Proof.
  apply (proj1 (main_exit_status utf8_console
                  (sample_env (Raise connection_refused) None) empty_state)).
  - by intros line.
  - apply sample_env_writable.
  - apply sample_env_raises_only_Exception. by intros e [= <-].
Defined.

(** On a standard output with the ASCII encoding the first line of
    [__init__], which starts with an emoji, is refused: the process ends
    with status 1 although the project could have been written. *)
Example main_on_ascii_console :
  fst (Console.run_main ascii_console
         (sample_env (Raise connection_refused) None) empty_state) = 1%Z.
Proof. by vm_compute. Qed.

(** C6: for every project directory the smoke test returns without raising
    and touches no file; when a step fails (reading or compiling main.py,
    creating the environment, installing the dependencies, the import
    check) the last line it prints is a warning. *)
Theorem test_project_never_raises
    (E : env) (self : RobustFastAPIGenerator)
    (project_path : list (list N)) (st : state) :
  raises_only_Exception E ->
  exists lines,
    test_project E self project_path st
    = (Ok tt, State (stdout st ++ lines) (fs st))
    /\ (~ smoke_test_passes E project_path st ->
        exists w, last lines = Some w /\ is_warning w = true).
Proof.
  intros HE.
  destruct (test_project_cases E self project_path st HE)
    as [[Hpass H]|[_ (lines & w & H & Hlast & Hw)]].
  - eexists. split; [exact H|]. intros Hfail. by destruct Hfail.
  - exists lines. split; [exact H|]. intros _. by exists w.
Qed.

(** A main.py with a syntax error: the smoke test reports it and returns. *)
Example test_project_syntax_error :
  test_project (sample_env (Ok []) None) demo_generator [u "output"; u "demo"]
    broken_project
  = (Ok tt,
     State [test_tube ++ u " Testing generated code...";
            cross_mark ++ u " Syntax error: invalid syntax (<string>, line 1)"]
       (fs broken_project)).
Proof. vm_compute. reflexivity. Qed.

Lemma test_project_never_raises_witness :
  exists lines,
    test_project (sample_env (Ok []) None) demo_generator
      [u "output"; u "demo"] broken_project
    = (Ok tt, State (stdout broken_project ++ lines) (fs broken_project))
    /\ (~ smoke_test_passes (sample_env (Ok []) None) [u "output"; u "demo"]
            broken_project ->
        exists w, last lines = Some w /\ is_warning w = true).
Proof.
  apply (test_project_never_raises (sample_env (Ok []) None) demo_generator
           [u "output"; u "demo"] broken_project).
  by apply sample_env_raises_only_Exception.
Defined.

(** The manifest, read back: four entries. *)
Lemma manifest_entries_requirements_txt :
  manifest_entries requirements_txt =
  [Some (u "fastapi", u "0.104.0");
   Some (u "uvicorn", u "0.24.0");
   Some (u "pydantic", u "2.0.0");
   Some (u "python-multipart", u "0.0.6")].
Proof. by vm_compute. Qed.

(** The requirements text is the third part of the README. *)
Lemma readme_contains_requirements (requirements project_name : list N) :
  substring requirements (join LF (readme_parts requirements project_name)).
Proof.
  exists ((u "# " ++ project_name) ++ LF ++ [] ++ LF).
  eexists. unfold readme_parts. cbn [join].
  rewrite <- !app_assoc. reflexivity.
Qed.

(** C8: for every project name and any two final texts, a first call leaves
    main.py, requirements.txt and README.md under the project directory and
    changes no other file; a second call with the same name replaces the
    content of main.py by the second text and writes the same manifest of
    four entries again. *)
Theorem create_project_twice
    (E1 E2 : env) (self : RobustFastAPIGenerator)
    (requirements1 requirements2 project_name code1 code2 : list N)
    (st : state) :
  writable E1 (Path (u "output/" ++ project_name)) ->
  writable E2 (Path (u "output/" ++ project_name)) ->
  raises_only_Exception E1 ->
  raises_only_Exception E2 ->
  delivers E1 self requirements1 code1 ->
  delivers E2 self requirements2 code2 ->
  exists st1 st2,
    create_project E1 self requirements1 project_name st
    = (Ok (path_str (Path (u "output/" ++ project_name))), st1)
    /\ fs st1 =
       <[Path (u "output/" ++ project_name) // u "README.md" :=
           join LF (readme_parts requirements1 project_name)]>
         (<[Path (u "output/" ++ project_name) // u "requirements.txt" :=
              requirements_txt]>
            (<[Path (u "output/" ++ project_name) // u "main.py" := code1]>
               (fs st)))
    /\ fs st1 !! (Path (u "output/" ++ project_name) // u "main.py")
       = Some code1
    /\ fs st1 !! (Path (u "output/" ++ project_name) // u "requirements.txt")
       = Some requirements_txt
    /\ create_project E2 self requirements2 project_name st1
       = (Ok (path_str (Path (u "output/" ++ project_name))), st2)
    /\ fs st2 !! (Path (u "output/" ++ project_name) // u "main.py")
       = Some code2
    /\ fs st2 !! (Path (u "output/" ++ project_name) // u "requirements.txt")
       = Some requirements_txt
    /\ manifest_entries requirements_txt =
       [Some (u "fastapi", u "0.104.0");
        Some (u "uvicorn", u "0.24.0");
        Some (u "pydantic", u "2.0.0");
        Some (u "python-multipart", u "0.0.6")].
Proof.
  intros Hw1 Hw2 HE1 HE2 Hd1 Hd2.
  destruct (project_files_distinct (Path (u "output/" ++ project_name)))
    as (Hmr & Hmd & Hrd).
  destruct (create_project_run E1 self requirements1 project_name code1 st
              Hw1 HE1 Hd1) as (l1 & Hrun1).
  eexists.
  destruct (create_project_run E2 self requirements2 project_name code2
              (State (stdout st ++ l1)
                 (<[Path (u "output/" ++ project_name) // u "README.md" :=
                      join LF (readme_parts requirements1 project_name)]>
                    (<[Path (u "output/" ++ project_name)
                         // u "requirements.txt" := requirements_txt]>
                       (<[Path (u "output/" ++ project_name) // u "main.py"
                            := code1]> (fs st)))))
              Hw2 HE2 Hd2) as (l2 & Hrun2).
  eexists. split; [exact Hrun1|]. split; [reflexivity|].
  cbn [fs]. split.
  { rewrite !lookup_insert_ne by done. apply lookup_insert_eq. }
  split.
  { rewrite lookup_insert_ne by done. apply lookup_insert_eq. }
  split; [exact Hrun2|]. cbn [fs]. split.
  { rewrite !lookup_insert_ne by done. apply lookup_insert_eq. }
  split.
  { rewrite lookup_insert_ne by done. apply lookup_insert_eq. }
  apply manifest_entries_requirements_txt.
Qed.

Lemma sample_env_delivers answer mk self requirements :
  sample_compile (sanitize answer) (u "<string>") = Ok tt ->
  delivers (sample_env (Ok answer) mk) self requirements (sanitize answer).
Proof. intros Hc st. by rewrite (enhance_valid _ _ _ _ st answer). Qed.

Lemma create_project_twice_witness :
  exists st1 st2,
    create_project (sample_env (Ok (u "x = 1")) None) demo_generator
      (u "Task manager API with CRUD") (u "demo") empty_state
    = (Ok (u "output/demo"), st1)
    /\ fs st1 !! [u "output"; u "demo"; u "main.py"] = Some (u "x = 1")
    /\ create_project (sample_env (Ok (u "y = 2")) None) demo_generator
         (u "Task manager API, version 2") (u "demo") st1
       = (Ok (u "output/demo"), st2)
    /\ fs st2 !! [u "output"; u "demo"; u "main.py"] = Some (u "y = 2")
    /\ fs st2 !! [u "output"; u "demo"; u "requirements.txt"]
       = Some requirements_txt.
Proof.
  destruct (create_project_twice
              (sample_env (Ok (u "x = 1")) None)
              (sample_env (Ok (u "y = 2")) None)
              demo_generator
              (u "Task manager API with CRUD")
              (u "Task manager API, version 2")
              (u "demo") (u "x = 1") (u "y = 2") empty_state)
    as (st1 & st2 & H1 & _ & H2 & _ & H3 & H4 & H5 & _).
  - apply sample_env_writable.
  - apply sample_env_writable.
  - by apply sample_env_raises_only_Exception.
  - by apply sample_env_raises_only_Exception.
  - by apply (sample_env_delivers (u "x = 1")).
  - by apply (sample_env_delivers (u "y = 2")).
  - exists st1, st2. repeat split; assumption.
Defined.

(** C9: for every requirements text and project name, the README.md that
    [create_project] writes contains the requirements text as a contiguous
    run of characters, and the requirements.txt written next to it has
    exactly four entries. *)
Theorem create_project_readme_and_manifest
    (E : env) (self : RobustFastAPIGenerator)
    (requirements project_name : list N) (st : state) :
  writable E (Path (u "output/" ++ project_name)) ->
  raises_only_Exception E ->
  exists st' readme manifest,
    create_project E self requirements project_name st
    = (Ok (path_str (Path (u "output/" ++ project_name))), st')
    /\ fs st' !! (Path (u "output/" ++ project_name) // u "README.md")
       = Some readme
    /\ substring requirements readme
    /\ fs st' !! (Path (u "output/" ++ project_name) // u "requirements.txt")
       = Some manifest
    /\ length (manifest_entries manifest) = 4.
Proof.
  intros Hw HE.
  destruct (delivers_exists E self requirements HE) as (code & Hd).
  destruct (create_project_run E self requirements project_name code st
              Hw HE Hd) as (lines & Hrun).
  destruct (project_files_distinct (Path (u "output/" ++ project_name)))
    as (Hmr & Hmd & Hrd).
  eexists _, _, _. split; [exact Hrun|]. cbn [fs].
  split; [apply lookup_insert_eq|].
  split; [apply readme_contains_requirements|].
  split; [rewrite lookup_insert_ne by done; apply lookup_insert_eq|].
  by rewrite manifest_entries_requirements_txt.
Qed.

Lemma create_project_readme_and_manifest_witness :
  exists st' readme manifest,
    create_project (sample_env (Raise connection_refused) None) demo_generator
      (u "Task manager API with CRUD") (u "demo") empty_state
    = (Ok (u "output/demo"), st')
    /\ fs st' !! [u "output"; u "demo"; u "README.md"] = Some readme
    /\ substring (u "Task manager API with CRUD") readme
    /\ fs st' !! [u "output"; u "demo"; u "requirements.txt"] = Some manifest
    /\ length (manifest_entries manifest) = 4.
Proof.
  apply (create_project_readme_and_manifest
           (sample_env (Raise connection_refused) None) demo_generator
           (u "Task manager API with CRUD") (u "demo") empty_state).
  - apply sample_env_writable.
  - apply sample_env_raises_only_Exception. by intros e [= <-].
Defined.

(** The template does not depend on the requirements text. *)
Lemma create_working_fastapi_app_fixed
    (self : RobustFastAPIGenerator) (requirements : list N) :
  create_working_fastapi_app self requirements = template.
Proof. reflexivity. Qed.

(** * Further properties of the generator *)

(** ** The ends of a stripped text *)

Section StripEnds.
Implicit Types s t : list N.

Lemma rstrip_fixed t :
  rstrip t = t <->
  match last t with Some c => isspace c = false | None => True end.
Proof.
  unfold rstrip. destruct t as [|x l _] using rev_ind; [done|].
  rewrite last_snoc, rev_app_distr. cbn [rev app lstrip].
  destruct (isspace x) eqn:Hx; split; try done.
  - intros H. apply (f_equal (@length N)) in H.
    rewrite length_rev, length_app in H. cbn [length] in H.
    pose proof (lstrip_length (rev l)) as Hl. rewrite length_rev in Hl. lia.
  - intros _. cbn [rev]. by rewrite rev_involutive.
Qed.

Lemma strip_fixed_split t : strip t = t <-> lstrip t = t /\ rstrip t = t.
Proof.
  split.
  - intros H. assert (lstrip t = t) as Hl.
    { destruct (lstrip_suffix t) as [w Hw].
      assert (length w = 0) as Hz.
      { apply (f_equal (@length N)) in Hw, H. rewrite length_app in Hw.
        unfold strip in H. pose proof (rstrip_length (lstrip t)). lia. }
      destruct w; [|done]. by rewrite Hw at 2. }
    split; [done|]. unfold strip in H. by rewrite Hl in H.
  - intros [Hl Hr]. unfold strip. by rewrite Hl.
Qed.

Lemma strip_fixed_ends t :
  strip t = t <->
  match head t with Some c => isspace c = false | None => True end
  /\ match last t with Some c => isspace c = false | None => True end.
Proof.
  rewrite strip_fixed_split, lstrip_fixed, rstrip_fixed. by destruct t.
Qed.
End StripEnds.

(** X1: whatever the model answered, the cleaned text neither starts nor
    ends with a blank character. *)
Theorem sanitize_no_blank_ends (s : list N) :
  match head (sanitize s) with Some c => isspace c = false | None => True end
  /\ match last (sanitize s) with Some c => isspace c = false | None => True end.
Proof. apply strip_fixed_ends, sanitize_stripped. Qed.

(** X2: an answer that is already plain code (no blank at either end, no
    think block, no fence at either end) goes through the clean-up
    unchanged. *)
Theorem sanitize_plain_code_unchanged (t : list N) :
  match head t with Some c => isspace c = false | None => True end ->
  match last t with Some c => isspace c = false | None => True end ->
  marker_free t = true ->
  sanitize t = t.
Proof.
  intros Hhead Hlast Hfree.
  apply sanitize_marker_free; [|done]. by apply strip_fixed_ends.
Qed.

Lemma sanitize_plain_code_unchanged_witness :
  sanitize (u "import os" ++ LF ++ u "x = 1") = u "import os" ++ LF ++ u "x = 1".
Proof. by apply sanitize_plain_code_unchanged. Defined.

(** ** A fence behind a think block *)

Section FenceBehindThink.
Implicit Types s p w x r gap body code : list N.

Lemma startswith_prefix p w : startswith (p ++ w) p = true.
Proof. induction p as [|a p IH]; [done|]. cbn. by rewrite N.eqb_refl. Qed.

Lemma startswith_app_l s p w :
  startswith s p = true -> startswith (s ++ w) p = true.
Proof.
  revert s. induction p as [|a p IH]; intros [|c s]; cbn; try done.
  intros [-> H]%andb_prop. by apply IH.
Qed.

Lemma startswith_app_inv s p w :
  startswith (s ++ w) p = true -> length p <= length s ->
  startswith s p = true.
Proof.
  revert s. induction p as [|a p IH]; intros [|c s]; cbn; try done; try lia.
  intros [-> H]%andb_prop Hlen. apply IH; [done|lia].
Qed.

(** What is appended behind a closing tag does not move it. *)
Lemma after_close_app x r w :
  after_close x = Some r -> after_close (x ++ w) = Some (r ++ w).
Proof.
  induction x as [|c x IH]; rewrite after_close_eq.
  - by cbn.
  - destruct (startswith (c :: x) think_close) eqn:H.
    + intros [= <-]. rewrite after_close_eq.
      rewrite (startswith_app_l _ _ w H).
      apply startswith_length in H. change (length think_close) with 8 in H.
      by rewrite drop_app_le.
    + intros Hr. rewrite after_close_eq.
      destruct (startswith ((c :: x) ++ w) think_close) eqn:H'.
      * apply after_close_length in Hr.
        apply startswith_app_inv in H'; [congruence|].
        change (length think_close) with 8. cbn [length]. lia.
      * cbn [app]. by apply IH.
Qed.

Lemma match_think_app p r w :
  match_think p = Some r -> match_think (p ++ w) = Some (r ++ w).
Proof.
  unfold match_think. destruct (startswith p think_open) eqn:H; [|done].
  rewrite (startswith_app_l _ _ w H). intros Hr.
  apply startswith_length in H. change (length think_open) with 7 in H.
  rewrite drop_app_le by done. by apply after_close_app.
Qed.

(** A block stays a block when text is appended. *)
Lemma has_think_app p w : has_think p = true -> has_think (p ++ w) = true.
Proof.
  induction p as [|c p IH]; [done|].
  cbn [app]. rewrite !has_think_cons.
  destruct (match_think (c :: p)) as [r|] eqn:Hm.
  - intros _. change (c :: p ++ w) with ((c :: p) ++ w).
    by rewrite (match_think_app _ _ w Hm).
  - intros H%IH. by destruct (match_think (c :: p ++ w)).
Qed.

Lemma isspace_not_marker c :
  isspace c = true -> (c =? 60)%N = false /\ (c =? 96)%N = false.
Proof.
  intros Hc. split; apply N.eqb_neq; intros ->; discriminate Hc.
Qed.

(** No block starts at a blank. *)
Lemma has_think_blanks gap s :
  forallb isspace gap = true -> has_think (gap ++ s) = has_think s.
Proof.
  induction gap as [|c gap IH]; [done|].
  cbn [forallb app]. intros [Hc Hgap]%andb_prop.
  rewrite has_think_cons. unfold match_think.
  assert (startswith (c :: gap ++ s) think_open = false) as ->.
  { change (startswith (c :: gap ++ s) think_open)
      with ((c =? 60)%N && startswith (gap ++ s) (u "think>")).
    by destruct (isspace_not_marker c Hc) as [-> _]. }
  by apply IH.
Qed.

Lemma lstrip_blanks gap s :
  forallb isspace gap = true -> lstrip (gap ++ s) = lstrip s.
Proof.
  induction gap as [|c gap IH]; [done|].
  cbn [forallb app lstrip]. intros [-> Hgap]%andb_prop. by apply IH.
Qed.

Lemma lstrip_app_fixed a b : lstrip b = b -> lstrip (a ++ b) = lstrip a ++ b.
Proof.
  intros Hb. induction a as [|c a IH]; [done|].
  cbn [app lstrip]. by destruct (isspace c).
Qed.

(** Trailing blanks are looked for behind the last character that is not
    one. *)
Lemma rstrip_app_keep p c x :
  last p = Some c -> isspace c = false -> rstrip (p ++ x) = p ++ rstrip x.
Proof.
  intros Hlast Hc. unfold rstrip.
  rewrite rev_app_distr, lstrip_app_fixed.
  - by rewrite rev_app_distr, rev_involutive.
  - apply lstrip_fixed. destruct p as [|y l _] using rev_ind; [done|].
    rewrite last_snoc in Hlast. injection Hlast as ->.
    by rewrite rev_app_distr.
Qed.

(** A block at the head of the text is cut out as a whole. *)
Lemma re_sub_think_block body s :
  after_close (body ++ think_close) = Some [] ->
  re_sub_think (think_open ++ body ++ think_close ++ s) = re_sub_think s.
Proof.
  intros Hclose.
  assert (match_think (think_open ++ body ++ think_close ++ s) = Some s)
    as Hm.
  { unfold match_think. rewrite startswith_prefix.
    rewrite drop_app_length' by done.
    rewrite (app_assoc body). by rewrite (after_close_app _ _ s Hclose). }
  change (think_open ++ body ++ think_close ++ s)
    with (60%N :: (u "think>" ++ body ++ think_close ++ s)) in *.
  by rewrite re_sub_think_cons, Hm.
Qed.
End FenceBehindThink.

(** X3: the answer of a reasoning model, a think block, then blank
    characters, then a [```python] fence and the code, keeps its opening
    fence.  The blanks behind the block are left when the fence is looked
    for at the head of the text, and only the last [strip] removes them: the
    cleaned text starts with the three backquotes. *)
Theorem sanitize_keeps_fence_behind_think (body gap code : list N) :
  after_close (body ++ think_close) = Some [] ->
  gap <> [] ->
  forallb isspace gap = true ->
  has_think (fence_python ++ code) = false ->
  startswith
    (sanitize (think_open ++ body ++ think_close ++ gap ++ fence_python ++ code))
    fence = true.
Proof.
  intros Hclose Hgap Hblank Hcode.
  rewrite sanitize_steps.
  (* the first strip only touches the end of the code *)
  assert (strip (think_open ++ body ++ think_close ++ gap ++ fence_python
                   ++ code)
          = think_open ++ body ++ think_close ++ gap ++ fence_python
              ++ rstrip code) as ->.
  { unfold strip.
    assert (lstrip (think_open ++ body ++ think_close ++ gap ++ fence_python
                      ++ code)
            = think_open ++ body ++ think_close ++ gap ++ fence_python
                ++ code) as -> by (by apply lstrip_fixed).
    rewrite !(app_assoc _ _ code), !(app_assoc _ _ (rstrip code)).
    apply (rstrip_app_keep _ 110%N); [|done].
    by rewrite !last_app. }
  (* the block goes, what is behind it holds no other block *)
  rewrite (re_sub_think_block body _ Hclose).
  assert (has_think (fence_python ++ rstrip code) = false) as Hcode'.
  { destruct (has_think (fence_python ++ rstrip code)) eqn:H; [|done].
    destruct (rstrip_prefix code) as [w Hw].
    apply (has_think_app _ w) in H.
    rewrite <- app_assoc, <- Hw in H. congruence. }
  rewrite re_sub_think_none
    by (by rewrite has_think_blanks).
  (* the text starts with a blank: no fence is found at its head *)
  destruct gap as [|g gap]; [done|]. cbn [forallb] in Hblank.
  apply andb_prop in Hblank as [Hg Hblank].
  rewrite drop_leading_fence_none.
  2:{ change (startswith ((g :: gap) ++ fence_python ++ rstrip code) fence)
        with ((g =? 96)%N
              && startswith (gap ++ fence_python ++ rstrip code) (u "``")).
      by destruct (isspace_not_marker g Hg) as [_ ->]. }
  (* the trailing fence, if there is one, is behind the opening one *)
  assert (exists y,
             drop_trailing_fence ((g :: gap) ++ fence_python ++ rstrip code)
             = (g :: gap) ++ fence ++ y) as [y ->].
  { unfold drop_trailing_fence, slice_to_minus.
    change fence_python with (fence ++ u "python").
    rewrite <- (app_assoc fence).
    destruct (endswith _ fence); [|by eexists].
    rewrite !length_app. change (length fence) with 3.
    change (length (u "python")) with 6.
    rewrite take_app_ge by lia. rewrite take_app_ge by (change (length fence) with 3; lia).
    by eexists. }
  (* the last strip removes the blanks in front of the fence *)
  unfold strip.
  change ((g :: gap) ++ fence ++ y) with ([g] ++ gap ++ fence ++ y).
  rewrite (lstrip_blanks [g]) by (cbn; by rewrite Hg).
  rewrite (lstrip_blanks gap) by done.
  assert (lstrip (fence ++ y) = fence ++ y) as -> by (by apply lstrip_fixed).
  rewrite (rstrip_app_keep fence 96%N) by done.
  apply startswith_prefix.
Qed.

Lemma sanitize_keeps_fence_behind_think_witness :
  startswith
    (sanitize (think_open ++ LF ++ think_close ++ (LF ++ LF) ++ fence_python
                 ++ (LF ++ u "x = 1" ++ LF ++ u "```" ++ LF)))
    fence = true.
Proof. by apply sanitize_keeps_fence_behind_think. Defined.

(** X4: the answer the clean-up is written for.  A fenced block, that is
    [```python] or [```], a newline, the code, a newline and [```], is
    reduced to the code, when the answer holds no think block and the code
    has no blank at either end. *)
Theorem sanitize_fenced_answer (opening code : list N) :
  opening = fence_python \/ opening = fence ->
  match head code with Some c => isspace c = false | None => True end ->
  match last code with Some c => isspace c = false | None => True end ->
  has_think (opening ++ LF ++ code ++ LF ++ fence) = false ->
  sanitize (opening ++ LF ++ code ++ LF ++ fence) = code.
Proof.
  intros Hopening Hhead Hlast Hthink.
  rewrite sanitize_steps.
  (* nothing to strip, no block to remove *)
  assert (strip (opening ++ LF ++ code ++ LF ++ fence)
          = opening ++ LF ++ code ++ LF ++ fence) as ->.
  { apply strip_fixed_ends. split.
    - by destruct Hopening as [-> | ->].
    - by rewrite !last_app. }
  rewrite (re_sub_think_none _ Hthink).
  (* the opening fence, with or without the language tag *)
  assert (drop_leading_fence (opening ++ LF ++ code ++ LF ++ fence)
          = LF ++ code ++ LF ++ fence) as ->.
  { unfold drop_leading_fence, slice_from.
    destruct Hopening as [-> | ->].
    - rewrite startswith_prefix. by rewrite drop_app_length'.
    - assert (startswith (fence ++ LF ++ code ++ LF ++ fence) fence_python
              = false) as -> by done.
      rewrite startswith_prefix. by rewrite drop_app_length'. }
  (* the closing fence *)
  assert (drop_trailing_fence (LF ++ code ++ LF ++ fence) = LF ++ code ++ LF)
    as ->.
  { assert (endswith (LF ++ code ++ LF ++ fence) fence = true) as Hend.
    { unfold endswith. rewrite !rev_app_distr, <- !app_assoc.
      apply startswith_prefix. }
    unfold drop_trailing_fence, slice_to_minus. rewrite Hend.
    replace (LF ++ code ++ LF ++ fence) with ((LF ++ code ++ LF) ++ fence)
      by (by rewrite <- !app_assoc).
    rewrite length_app. change (length fence) with 3.
    by rewrite take_app_length' by lia. }
  (* the two newlines around the code *)
  unfold strip. rewrite (lstrip_blanks LF) by done.
  destruct code as [|c code]; [done|].
  assert (lstrip ((c :: code) ++ LF) = (c :: code) ++ LF) as ->
    by (by apply lstrip_fixed).
  destruct (last (c :: code)) as [z|] eqn:Hz.
  - rewrite (rstrip_app_keep _ z) by done. by rewrite app_nil_r.
  - by rewrite last_cons in Hz; destruct (last code).
Qed.

Lemma sanitize_fenced_answer_witness :
  sanitize (fence_python ++ LF ++ (u "import os" ++ LF ++ u "x = 1") ++ LF
              ++ fence)
  = u "import os" ++ LF ++ u "x = 1".
Proof. apply sanitize_fenced_answer; [by left|done..]. Defined.

(** ** What the enhancement can return *)

Lemma not_Exception_not_SyntaxError e :
  isinstance_Exception e = false -> isinstance_SyntaxError e = false.
Proof.
  intros He. destruct (isinstance_SyntaxError e) eqn:Hs; [|done].
  apply isinstance_SyntaxError_Exception in Hs. congruence.
Qed.

(** [compile] raises outside [Exception]: no handler takes it. *)
Lemma enhance_compile_interrupted E self base_code requirements st content e :
  llm_invoke E (model_name self) (prompt_of base_code requirements)
  = Ok content ->
  py_compile E (sanitize content) (u "<string>") = Raise e ->
  isinstance_Exception e = false ->
  enhance_with_llm E self base_code requirements st =
  (Raise e, State (stdout st ++ [wrench ++ u " Enhancing with LLM..."]) (fs st)).
Proof.
  intros Hllm Hc He. unfold enhance_with_llm. unfold_m.
  rewrite Hllm, Hc. cbn [dispatch].
  rewrite (not_Exception_not_SyntaxError e He), He. by tidy_output.
Qed.

(** X5: [enhance_with_llm] writes no file, and the text it returns is either
    the base code it was given, as it was given and without having been
    compiled, or a cleaned answer that [compile] accepted; nothing else can
    come back.  When it raises, the exception is not an [Exception]. *)
Theorem enhance_with_llm_result
    (E : env) (self : RobustFastAPIGenerator)
    (base_code requirements : list N) (st : state) :
  fs (snd (enhance_with_llm E self base_code requirements st)) = fs st
  /\ match fst (enhance_with_llm E self base_code requirements st) with
     | Ok code =>
         code = base_code
         \/ exists content,
             llm_invoke E (model_name self) (prompt_of base_code requirements)
             = Ok content
             /\ code = sanitize content
             /\ py_compile E code (u "<string>") = Ok tt
     | Raise e => isinstance_Exception e = false
     end.
Proof.
  destruct (llm_invoke E (model_name self) (prompt_of base_code requirements))
    as [content|e] eqn:Hllm.
  - destruct (py_compile E (sanitize content) (u "<string>")) as [[]|e] eqn:Hc.
    + rewrite (enhance_valid _ _ _ _ st content Hllm Hc). cbn [fst snd fs].
      split; [done|]. right. by exists content.
    + destruct (isinstance_Exception e) eqn:He.
      * destruct (isinstance_SyntaxError e) eqn:Hs.
        -- rewrite (enhance_syntax_error _ _ _ _ st content e Hllm Hc Hs).
           cbn [fst snd fs]. split; [done|]. by left.
        -- rewrite (enhance_compile_raises _ _ _ _ st content e Hllm Hc Hs He).
           cbn [fst snd fs]. split; [done|]. by left.
      * by rewrite (enhance_compile_interrupted _ _ _ _ st content e Hllm Hc He).
  - destruct (isinstance_Exception e) eqn:He.
    + rewrite (enhance_llm_raises _ _ _ _ st e Hllm He). cbn [fst snd fs].
      split; [done|]. by left.
    + by rewrite (enhance_llm_interrupted _ _ _ _ st e Hllm He).
Qed.

(** X6: an exception outside [Exception] (an interrupt), raised by the
    model client or by [compile], is not caught by [enhance_with_llm]; it
    leaves [create_project] too, before any file is written. *)
Theorem enhance_with_llm_lets_interrupt_through
    (E : env) (self : RobustFastAPIGenerator)
    (requirements project_name : list N) (e : exn) (st : state) :
  isinstance_Exception e = false ->
  (llm_invoke E (model_name self)
     (prompt_of (create_working_fastapi_app self requirements) requirements)
   = Raise e
   \/ exists content,
       llm_invoke E (model_name self)
         (prompt_of (create_working_fastapi_app self requirements) requirements)
       = Ok content
       /\ py_compile E (sanitize content) (u "<string>") = Raise e) ->
  mkdir_fault E (Path (u "output/" ++ project_name)) = None ->
  fst (enhance_with_llm E self (create_working_fastapi_app self requirements)
         requirements st) = Raise e
  /\ fst (create_project E self requirements project_name st) = Raise e
  /\ fs (snd (create_project E self requirements project_name st)) = fs st.
Proof.
  intros He Hraise Hmk.
  assert (forall st0,
             enhance_with_llm E self
               (create_working_fastapi_app self requirements) requirements st0
             = (Raise e,
                State (stdout st0 ++ [wrench ++ u " Enhancing with LLM..."])
                  (fs st0))) as Hrun.
  { intros st0. destruct Hraise as [Hllm|(content & Hllm & Hc)].
    - by apply enhance_llm_interrupted.
    - by eapply enhance_compile_interrupted. }
  split; [by rewrite Hrun|].
  unfold create_project. unfold_m. cbn [stdout fs]. rewrite Hmk.
  by rewrite Hrun.
Qed.

Lemma enhance_with_llm_lets_interrupt_through_witness :
  fst (create_project
         (sample_env (Raise (Exn KeyboardInterrupt [])) None) demo_generator
         (u "Task manager API with CRUD") (u "demo") empty_state)
  = Raise (Exn KeyboardInterrupt [])
  /\ fs (snd (create_project
                (sample_env (Raise (Exn KeyboardInterrupt [])) None)
                demo_generator (u "Task manager API with CRUD") (u "demo")
                empty_state)) = ∅.
Proof.
  apply (enhance_with_llm_lets_interrupt_through
           (sample_env (Raise (Exn KeyboardInterrupt [])) None) demo_generator
           (u "Task manager API with CRUD") (u "demo")
           (Exn KeyboardInterrupt []) empty_state);
    [reflexivity|by left|reflexivity].
Defined.

(** X7: nothing is rolled back.  When README.md is refused after main.py
    and requirements.txt went through, [create_project] raises and the two
    files stay written. *)
Theorem create_project_keeps_written_files
    (E : env) (self : RobustFastAPIGenerator)
    (requirements project_name code : list N) (e : exn) (st : state) :
  mkdir_fault E (Path (u "output/" ++ project_name)) = None ->
  delivers E self requirements code ->
  write_fault E (Path (u "output/" ++ project_name) // u "main.py") code
  = None ->
  write_fault E (Path (u "output/" ++ project_name) // u "requirements.txt")
    requirements_txt = None ->
  write_fault E (Path (u "output/" ++ project_name) // u "README.md")
    (join LF (readme_parts requirements project_name)) = Some e ->
  exists lines,
    create_project E self requirements project_name st =
    (Raise e,
     State (stdout st ++ lines)
       (<[Path (u "output/" ++ project_name) // u "requirements.txt" :=
            requirements_txt]>
          (<[Path (u "output/" ++ project_name) // u "main.py" := code]>
             (fs st)))).
Proof.
  intros Hmk Hd Hw1 Hw2 Hw3.
  unfold create_project. unfold_m. cbn [stdout fs]. rewrite Hmk.
  match goal with
  | |- context [enhance_with_llm E self ?b ?r ?s] =>
      destruct (delivers_run E self r code s Hd) as (l1 & ->)
  end.
  rewrite Hw1. cbn [stdout fs]. rewrite Hw2. cbn [stdout fs]. rewrite Hw3.
  tidy_output. by eexists.
Qed.

Lemma delivers_valid E self requirements answer :
  llm_invoke E (model_name self)
    (prompt_of (create_working_fastapi_app self requirements) requirements)
  = Ok answer ->
  py_compile E (sanitize answer) (u "<string>") = Ok tt ->
  delivers E self requirements (sanitize answer).
Proof. intros Hllm Hc st. by rewrite (enhance_valid _ _ _ _ st answer). Qed.

Lemma create_project_keeps_written_files_witness :
  exists lines,
    create_project
      (sample_env_refusing (Ok (u "x = 1")) [u "output"; u "demo"; u "README.md"])
      demo_generator (u "Task manager API with CRUD") (u "demo") empty_state
    = (Raise (Exn OSError (u "[Errno 13] Permission denied")),
       State (stdout empty_state ++ lines)
         (<[ [u "output"; u "demo"; u "requirements.txt"] := requirements_txt ]>
            (<[ [u "output"; u "demo"; u "main.py"] := u "x = 1" ]>
               (fs empty_state)))).
Proof.
  apply (create_project_keeps_written_files
           (sample_env_refusing (Ok (u "x = 1"))
              [u "output"; u "demo"; u "README.md"])
           demo_generator (u "Task manager API with CRUD") (u "demo")
           (u "x = 1")).
  - reflexivity.
  - by apply (delivers_valid _ _ _ (u "x = 1")).
  - reflexivity.
  - reflexivity.
  - reflexivity.
Defined.



(** X9: the smoke test says [Code imports successfully!] last exactly when
    every step went through: main.py was read, [compile] accepted it, the
    three child processes ran and the import check ended with status 0. *)
Theorem test_project_success_line
    (E : env) (self : RobustFastAPIGenerator)
    (project_path : list (list N)) (st : state) :
  raises_only_Exception E ->
  exists lines,
    test_project E self project_path st
    = (Ok tt, State (stdout st ++ lines) (fs st))
    /\ (last lines = Some (check_mark ++ u " Code imports successfully!")
        <-> smoke_test_passes E project_path st).
Proof.
  intros HE.
  destruct (test_project_cases E self project_path st HE)
    as [[Hpass H]|[Hfail (lines & w & H & Hlast & Hw)]].
  - eexists. split; [exact H|]. by split.
  - exists lines. split; [exact H|]. split; [|done].
    rewrite Hlast. intros [= ->]. discriminate Hw.
Qed.

Lemma test_project_success_line_witness :
  exists lines,
    test_project (sample_env (Ok []) None) demo_generator
      [u "output"; u "demo"] broken_project
    = (Ok tt, State (stdout broken_project ++ lines) (fs broken_project))
    /\ (last lines = Some (check_mark ++ u " Code imports successfully!")
        <-> smoke_test_passes (sample_env (Ok []) None) [u "output"; u "demo"]
              broken_project).
Proof.
  apply (test_project_success_line (sample_env (Ok []) None) demo_generator
           [u "output"; u "demo"] broken_project).
  by apply sample_env_raises_only_Exception.
Defined.

(** ** The project directory *)

Section ProjectPath.
Implicit Types s name : list N.

Lemma split_on_nonempty sep s : split_on sep s <> [].
Proof.
  destruct s as [|c s]; cbn; [done|].
  destruct (c =? sep)%N; [done|]. by destruct (split_on sep s).
Qed.

(** A separator at the end opens one more, empty, component. *)
Lemma split_on_snoc_sep sep s :
  split_on sep (s ++ [sep]) = split_on sep s ++ [[]].
Proof.
  induction s as [|c s IH]; cbn [app split_on].
  - by rewrite N.eqb_refl.
  - rewrite IH. destruct (c =? sep)%N; [done|].
    pose proof (split_on_nonempty sep s). by destruct (split_on sep s).
Qed.

Lemma Path_trailing_slash s : Path (s ++ u "/") = Path s.
Proof.
  unfold Path. change (u "/") with [slash].
  rewrite split_on_snoc_sep, filter_app.
  rewrite (filter_cons_False _ []) by (by intros [? _]).
  by rewrite filter_nil, app_nil_r.
Qed.
End ProjectPath.

(** X11: a slash at the end of the project name does not change the
    project directory: the two names write the same three files and return
    the same path. *)
Theorem create_project_trailing_slash
    (E : env) (self : RobustFastAPIGenerator)
    (requirements project_name code : list N) (st : state) :
  writable E (Path (u "output/" ++ project_name)) ->
  raises_only_Exception E ->
  delivers E self requirements code ->
  exists p st1 st2,
    create_project E self requirements project_name st = (Ok p, st1)
    /\ create_project E self requirements (project_name ++ u "/") st
       = (Ok p, st2)
    /\ dom (fs st1) = dom (fs st2)
    /\ fs st1 !! (Path (u "output/" ++ project_name) // u "main.py")
       = Some code
    /\ fs st2 !! (Path (u "output/" ++ project_name) // u "main.py")
       = Some code.
Proof.
  intros Hw HE Hd.
  assert (Path (u "output/" ++ project_name ++ u "/")
          = Path (u "output/" ++ project_name)) as Hpath.
  { rewrite app_assoc. apply Path_trailing_slash. }
  destruct (create_project_run E self requirements project_name code st
              Hw HE Hd) as (l1 & Hrun1).
  assert (writable E (Path (u "output/" ++ project_name ++ u "/"))) as Hw'
    by (by rewrite Hpath).
  destruct (create_project_run E self requirements (project_name ++ u "/")
              code st Hw' HE Hd) as (l2 & Hrun2).
  rewrite Hpath in Hrun2.
  destruct (project_files_distinct (Path (u "output/" ++ project_name)))
    as (Hmr & Hmd & Hrd).
  eexists _, _, _. split; [exact Hrun1|]. split; [exact Hrun2|].
  cbn [fs]. split; [by rewrite !dom_insert_L|].
  split; rewrite !lookup_insert_ne by done; by rewrite lookup_insert_eq.
Qed.

Lemma create_project_trailing_slash_witness :
  exists p st1 st2,
    create_project (sample_env (Ok (u "x = 1")) None) demo_generator
      (u "Task manager API with CRUD") (u "demo") empty_state = (Ok p, st1)
    /\ create_project (sample_env (Ok (u "x = 1")) None) demo_generator
         (u "Task manager API with CRUD") (u "demo" ++ u "/") empty_state
       = (Ok p, st2)
    /\ dom (fs st1) = dom (fs st2)
    /\ fs st1 !! [u "output"; u "demo"; u "main.py"] = Some (u "x = 1")
    /\ fs st2 !! [u "output"; u "demo"; u "main.py"] = Some (u "x = 1").
Proof.
  apply (create_project_trailing_slash (sample_env (Ok (u "x = 1")) None)
           demo_generator (u "Task manager API with CRUD") (u "demo")
           (u "x = 1") empty_state).
  - apply sample_env_writable.
  - by apply sample_env_raises_only_Exception.
  - by apply (sample_env_delivers (u "x = 1")).
Defined.

(** * The generated services *)

(** ** Dictionaries *)

Section Dict.
Context {V : Type}.
Implicit Types (d : list (list N * V)) (k : list N) (v : V).

Lemma dict_get_set_eq d k v : dict_get (dict_set d k v) k = Some v.
Proof.
  induction d as [|[k' v'] d IH]; cbn.
  - by rewrite decide_True.
  - destruct (decide (k' = k)) as [->|Hne]; cbn.
    + by rewrite decide_True.
    + by rewrite decide_False.
Qed.

Lemma dict_get_set_ne d k k' v :
  k <> k' -> dict_get (dict_set d k v) k' = dict_get d k'.
Proof.
  intros Hne. induction d as [|[k0 v0] d IH]; cbn.
  - by rewrite decide_False.
  - destruct (decide (k0 = k)) as [->|Hne0]; cbn.
    + by rewrite !decide_False.
    + by rewrite IH.
Qed.

Lemma dict_get_None d k : dict_get d k = None <-> k ∉ dict_keys d.
Proof.
  unfold dict_keys. induction d as [|[k' v'] d IH]; cbn.
  - split; [intros _; apply not_elem_of_nil|done].
  - rewrite not_elem_of_cons. destruct (decide (k' = k)) as [->|Hne].
    + split; [done|]. by intros [? _].
    + rewrite IH. split; [by intros ?; split|by intros [_ ?]].
Qed.

(** A new key goes last. *)
Lemma dict_set_absent d k v :
  dict_get d k = None -> dict_set d k v = d ++ [(k, v)].
Proof.
  induction d as [|[k' v'] d IH]; cbn; [done|].
  destruct (decide (k' = k)); [done|]. intros H. by rewrite IH.
Qed.

(** A key that is present keeps its place. *)
Lemma dict_set_present_keys d k v :
  is_Some (dict_get d k) -> dict_keys (dict_set d k v) = dict_keys d.
Proof.
  unfold dict_keys. induction d as [|[k' v'] d IH]; cbn.
  - by intros [? ?].
  - destruct (decide (k' = k)) as [->|Hne]; cbn; [done|].
    intros H. by rewrite IH.
Qed.

Lemma dict_set_NoDup d k v :
  NoDup (dict_keys d) -> NoDup (dict_keys (dict_set d k v)).
Proof.
  intros Hnd. destruct (dict_get d k) as [v0|] eqn:Hget.
  - by rewrite dict_set_present_keys.
  - rewrite dict_set_absent by done. unfold dict_keys in *.
    rewrite map_app. cbn. apply NoDup_app. split; [done|].
    split; [|apply NoDup_singleton].
    intros x Hx ->%list_elem_of_singleton. by apply dict_get_None in Hget.
Qed.

Lemma dict_set_Forall (P : list N * V -> Prop) d k v :
  Forall P d -> P (k, v) -> Forall P (dict_set d k v).
Proof.
  intros Hd Hkv. induction Hd as [|[k' v'] d Hx Hd IH]; cbn.
  - by constructor.
  - destruct (decide (k' = k)); by constructor.
Qed.

Lemma dict_get_del_ne d k k' :
  k <> k' -> dict_get (dict_del d k) k' = dict_get d k'.
Proof.
  intros Hne. induction d as [|[k0 v0] d IH]; cbn; [done|].
  destruct (decide (k0 = k)) as [->|Hne0]; cbn.
  - by rewrite decide_False.
  - by rewrite IH.
Qed.

Lemma dict_del_keys_sublist d k :
  dict_keys (dict_del d k) `sublist_of` dict_keys d.
Proof.
  unfold dict_keys. induction d as [|[k0 v0] d IH]; cbn; [done|].
  destruct (decide (k0 = k)); cbn.
  - by apply sublist_cons.
  - by apply sublist_skip.
Qed.

(** With distinct keys the deleted key is gone. *)
Lemma dict_get_del_eq d k :
  NoDup (dict_keys d) -> dict_get (dict_del d k) k = None.
Proof.
  unfold dict_keys. induction d as [|[k0 v0] d IH]; cbn; [done|].
  intros [Hnotin Hnd]%NoDup_cons.
  destruct (decide (k0 = k)) as [->|Hne]; cbn.
  - by apply dict_get_None.
  - rewrite decide_False by done. by apply IH.
Qed.

Lemma dict_del_length d k :
  is_Some (dict_get d k) -> length (dict_del d k) + 1 = length d.
Proof.
  induction d as [|[k0 v0] d IH]; cbn.
  - by intros [? ?].
  - destruct (decide (k0 = k)); cbn; [lia|]. intros H%IH. lia.
Qed.

Lemma dict_del_Forall (P : list N * V -> Prop) d k :
  Forall P d -> Forall P (dict_del d k).
Proof.
  intros Hd. induction Hd as [|[k' v'] d Hx Hd IH]; cbn; [done|].
  destruct (decide (k' = k)); [done|]. by constructor.
Qed.

Lemma dict_get_Forall (P : list N * V -> Prop) d k v :
  Forall P d -> dict_get d k = Some v -> P (k, v).
Proof.
  intros Hd. induction Hd as [|[k' v'] d Hx Hd IH]; cbn; [done|].
  destruct (decide (k' = k)) as [->|]; [by intros [= ->]|done].
Qed.
End Dict.

(** ** The service of the template *)

Section RobustService.
Import RobustTaskManager.
Implicit Types (tasks_db : list (list N * Task)) (k : list N).

Lemma serve_store_ok tasks_db r :
  store_ok tasks_db -> store_ok (serve tasks_db r).
Proof.
  intros [Hnd Hid]. destruct r as [uuid4 task|k upd|k|]; cbn; [| | |done].
  - split; [by apply dict_set_NoDup|]. by apply dict_set_Forall.
  - unfold update_task. destruct (dict_get tasks_db k) as [t|] eqn:Hget;
      cbn; [|done].
    split; [by apply dict_set_NoDup|]. apply dict_set_Forall; [done|].
    apply (dict_get_Forall _ _ _ _ Hid) in Hget. cbn in Hget |- *.
    by destruct (TaskUpdate_description upd), (TaskUpdate_completed upd).
  - unfold delete_task. destruct (dict_get tasks_db k); cbn; [|done].
    split; [|by apply dict_del_Forall].
    eapply sublist_NoDup; [done|apply dict_del_keys_sublist].
Qed.

Lemma run_store_ok rs : store_ok (run rs).
Proof.
  unfold run. assert (store_ok tasks_db_init) as H.
  { split; [apply NoDup_nil_2|constructor]. }
  revert H. generalize tasks_db_init.
  induction rs as [|r rs IH]; intros db Hdb; [done|].
  cbn. by apply IH, serve_store_ok.
Qed.
End RobustService.

(** X12: whatever requests the service of the template has served since it
    started, no identifier is stored twice and every task is filed under its
    own identifier: [get_task] returns a task whose [id] is the one asked
    for, or the 404 exception. *)
Theorem robust_service_store_invariant
    (rs : list RobustTaskManager.request) (task_id : list N) :
  RobustTaskManager.store_ok (RobustTaskManager.run rs)
  /\ match RobustTaskManager.get_task task_id (RobustTaskManager.run rs) with
     | Return task => RobustTaskManager.Task_id task = task_id
     | RaiseHTTP e => status_code e = 404%Z
     end.
Proof.
  pose proof (run_store_ok rs) as Hok. split; [done|].
  unfold RobustTaskManager.get_task.
  destruct (dict_get (RobustTaskManager.run rs) task_id) as [t|] eqn:Hget;
    [|done].
  destruct Hok as [_ Hid]. by apply (dict_get_Forall _ _ _ _ Hid) in Hget.
Qed.

(** X13: a task that [create_task] has stored is what [get_task] returns
    for the identifier drawn: the title and description posted, not
    completed; every other identifier answers as before. *)
Theorem robust_create_then_get
    (uuid4 : list N) (task : RobustTaskManager.TaskCreate)
    (tasks_db : list (list N * RobustTaskManager.Task)) :
  fst (RobustTaskManager.create_task uuid4 task tasks_db)
  = RobustTaskManager.mkTask uuid4
      (RobustTaskManager.TaskCreate_title task)
      (RobustTaskManager.TaskCreate_description task) false
  /\ RobustTaskManager.get_task uuid4
       (snd (RobustTaskManager.create_task uuid4 task tasks_db))
     = Return (fst (RobustTaskManager.create_task uuid4 task tasks_db))
  /\ forall other,
      other <> uuid4 ->
      RobustTaskManager.get_task other
        (snd (RobustTaskManager.create_task uuid4 task tasks_db))
      = RobustTaskManager.get_task other tasks_db.
Proof.
  unfold RobustTaskManager.create_task, RobustTaskManager.get_task. cbn.
  split; [done|]. split.
  - by rewrite dict_get_set_eq.
  - intros other Hne. by rewrite dict_get_set_ne.
Qed.

(** An assignment to a key that is present changes the value at the place
    of the key and nothing else. *)
Lemma dict_set_present_values {V} (d : list (list N * V)) k v old :
  dict_get d k = Some old ->
  exists i,
    dict_keys d !! i = Some k
    /\ dict_values d !! i = Some old
    /\ dict_values (dict_set d k v) = <[i := v]> (dict_values d).
Proof.
  induction d as [|[k' v'] d IH]; cbn; [done|].
  destruct (decide (k' = k)) as [->|Hne].
  - intros [= ->]. by exists 0.
  - intros (i & Hk & Hv & Hset)%IH. exists (S i). cbn.
    repeat split; [done..|]. unfold dict_values in *. cbn. by rewrite Hset.
Qed.

(** X14: [create_task] does not look whether the identifier drawn is in
    use.  A new identifier puts the new task last in [get_all_tasks]; one
    that is in use puts the new task at the place of the task stored under
    it, which is lost: the keys, their order and the number of tasks stay
    the same. *)
Theorem robust_create_position
    (uuid4 : list N) (task : RobustTaskManager.TaskCreate)
    (tasks_db : list (list N * RobustTaskManager.Task)) :
  match dict_get tasks_db uuid4 with
  | None =>
      RobustTaskManager.get_all_tasks
        (snd (RobustTaskManager.create_task uuid4 task tasks_db))
      = RobustTaskManager.get_all_tasks tasks_db
          ++ [fst (RobustTaskManager.create_task uuid4 task tasks_db)]
  | Some old =>
      dict_keys (snd (RobustTaskManager.create_task uuid4 task tasks_db))
      = dict_keys tasks_db
      /\ length (RobustTaskManager.get_all_tasks
                   (snd (RobustTaskManager.create_task uuid4 task tasks_db)))
         = length (RobustTaskManager.get_all_tasks tasks_db)
      /\ exists i,
          dict_keys tasks_db !! i = Some uuid4
          /\ RobustTaskManager.get_all_tasks tasks_db !! i = Some old
          /\ RobustTaskManager.get_all_tasks
               (snd (RobustTaskManager.create_task uuid4 task tasks_db))
             = <[i := fst (RobustTaskManager.create_task uuid4 task tasks_db)]>
                 (RobustTaskManager.get_all_tasks tasks_db)
  end.
Proof.
  unfold RobustTaskManager.create_task, RobustTaskManager.get_all_tasks.
  cbn [fst snd].
  destruct (dict_get tasks_db uuid4) as [old|] eqn:Hget.
  - destruct (dict_set_present_values tasks_db uuid4
                (RobustTaskManager.mkTask uuid4
                   (RobustTaskManager.TaskCreate_title task)
                   (RobustTaskManager.TaskCreate_description task) false)
                old Hget) as (i & Hk & Hv & Hset).
    split; [by apply dict_set_present_keys|].
    split; [by rewrite Hset, length_insert|].
    by exists i.
  - rewrite dict_set_absent by done. unfold dict_values. by rewrite map_app.
Qed.

(** A colliding identifier in a store of two tasks: the first task is
    replaced, the second stays. *)
Example robust_create_collision :
  RobustTaskManager.get_all_tasks
    (snd (RobustTaskManager.create_task (u "a")
            (RobustTaskManager.mkTaskCreate (u "new") None)
            [(u "a", RobustTaskManager.mkTask (u "a") (u "old") None true);
             (u "b", RobustTaskManager.mkTask (u "b") (u "other") None false)]))
  = [RobustTaskManager.mkTask (u "a") (u "new") None false;
     RobustTaskManager.mkTask (u "b") (u "other") None false].
Proof. by vm_compute. Qed.

(** X15: on every store the service can reach, [delete_task] of a stored
    identifier removes that task and nothing else: [get_task] then answers
    404 for it and as before for every other identifier, and there is one
    task less.  For an identifier that is not stored it raises 404 and
    leaves the store as it is. *)
Theorem robust_delete_task_effect
    (rs : list RobustTaskManager.request) (task_id : list N) :
  match dict_get (RobustTaskManager.run rs) task_id with
  | None =>
      RobustTaskManager.delete_task task_id (RobustTaskManager.run rs)
      = (RaiseHTTP RobustTaskManager.not_found, RobustTaskManager.run rs)
  | Some _ =>
      RobustTaskManager.get_task task_id
        (snd (RobustTaskManager.delete_task task_id (RobustTaskManager.run rs)))
      = RaiseHTTP RobustTaskManager.not_found
      /\ (forall other,
            other <> task_id ->
            RobustTaskManager.get_task other
              (snd (RobustTaskManager.delete_task task_id
                      (RobustTaskManager.run rs)))
            = RobustTaskManager.get_task other (RobustTaskManager.run rs))
      /\ length (RobustTaskManager.get_all_tasks
                   (snd (RobustTaskManager.delete_task task_id
                           (RobustTaskManager.run rs)))) + 1
         = length (RobustTaskManager.get_all_tasks (RobustTaskManager.run rs))
  end.
Proof.
  destruct (run_store_ok rs) as [Hnd _].
  unfold RobustTaskManager.delete_task, RobustTaskManager.get_task,
    RobustTaskManager.get_all_tasks.
  destruct (dict_get (RobustTaskManager.run rs) task_id) as [t|] eqn:Hget;
    [|done].
  cbn [snd]. split; [by rewrite dict_get_del_eq|]. split.
  - intros other Hne. by rewrite dict_get_del_ne.
  - unfold dict_values. rewrite !length_map. by apply dict_del_length.
Qed.

(** X16: [update_task] of a stored identifier returns the task as it is
    stored afterwards, and keeps the number and the order of the tasks and
    every other task; for an identifier that is not stored it raises 404
    and leaves the store as it is. *)
Theorem robust_update_task_effect
    (task_id : list N) (task_update : RobustTaskManager.TaskUpdate)
    (tasks_db : list (list N * RobustTaskManager.Task)) :
  match dict_get tasks_db task_id with
  | None =>
      RobustTaskManager.update_task task_id task_update tasks_db
      = (RaiseHTTP RobustTaskManager.not_found, tasks_db)
  | Some _ =>
      RobustTaskManager.get_task task_id
        (snd (RobustTaskManager.update_task task_id task_update tasks_db))
      = fst (RobustTaskManager.update_task task_id task_update tasks_db)
      /\ dict_keys
           (snd (RobustTaskManager.update_task task_id task_update tasks_db))
         = dict_keys tasks_db
      /\ forall other,
          other <> task_id ->
          RobustTaskManager.get_task other
            (snd (RobustTaskManager.update_task task_id task_update tasks_db))
          = RobustTaskManager.get_task other tasks_db
  end.
Proof.
  unfold RobustTaskManager.update_task, RobustTaskManager.get_task.
  destruct (dict_get tasks_db task_id) as [t|] eqn:Hget; [|done].
  cbn [fst snd]. split; [by rewrite dict_get_set_eq|]. split.
  - apply dict_set_present_keys. by rewrite Hget.
  - intros other Hne. by rewrite dict_get_set_ne.
Qed.

(** X17: what an update can change.  The task keeps its identifier and
    takes the new title; a description or a status that is not given stays
    as stored, so no update can take a description away once a task has
    one. *)
Theorem robust_update_task_fields
    (task_id : list N) (task_update : RobustTaskManager.TaskUpdate)
    (tasks_db : list (list N * RobustTaskManager.Task)) :
  match dict_get tasks_db task_id,
        fst (RobustTaskManager.update_task task_id task_update tasks_db) with
  | Some stored, Return task =>
      RobustTaskManager.Task_id task = RobustTaskManager.Task_id stored
      /\ RobustTaskManager.Task_title task
         = RobustTaskManager.TaskUpdate_title task_update
      /\ RobustTaskManager.Task_description task
         = match RobustTaskManager.TaskUpdate_description task_update with
           | Some d => Some d
           | None => RobustTaskManager.Task_description stored
           end
      /\ RobustTaskManager.Task_completed task
         = match RobustTaskManager.TaskUpdate_completed task_update with
           | Some c => c
           | None => RobustTaskManager.Task_completed stored
           end
      /\ (is_Some (RobustTaskManager.Task_description stored) ->
          is_Some (RobustTaskManager.Task_description task))
  | Some _, RaiseHTTP _ => False
  | None, r => r = RaiseHTTP RobustTaskManager.not_found
  end.
Proof.
  unfold RobustTaskManager.update_task.
  destruct (dict_get tasks_db task_id) as [stored|]; [|done].
  cbn [fst].
  destruct (RobustTaskManager.TaskUpdate_description task_update),
    (RobustTaskManager.TaskUpdate_completed task_update);
    cbn; repeat split; eauto.
Qed.

(** X18: the completed and the pending tasks split [get_all_tasks]: each
    list keeps the order of the store, holds only tasks of its status, and
    together they hold every task once. *)
Theorem robust_completed_pending_split
    (tasks_db : list (list N * RobustTaskManager.Task)) :
  RobustTaskManager.get_completed_tasks tasks_db
    ++ RobustTaskManager.get_pending_tasks tasks_db
  ≡ₚ RobustTaskManager.get_all_tasks tasks_db
  /\ RobustTaskManager.get_completed_tasks tasks_db
     `sublist_of` RobustTaskManager.get_all_tasks tasks_db
  /\ RobustTaskManager.get_pending_tasks tasks_db
     `sublist_of` RobustTaskManager.get_all_tasks tasks_db
  /\ Forall (fun task => RobustTaskManager.Task_completed task = true)
       (RobustTaskManager.get_completed_tasks tasks_db)
  /\ Forall (fun task => RobustTaskManager.Task_completed task = false)
       (RobustTaskManager.get_pending_tasks tasks_db).
Proof.
  unfold RobustTaskManager.get_completed_tasks,
    RobustTaskManager.get_pending_tasks, RobustTaskManager.get_all_tasks.
  generalize (dict_values tasks_db). intros l. split; [|split; [|split; [|split]]].
  - induction l as [|t l IH]; [done|].
    destruct (RobustTaskManager.Task_completed t) eqn:Ht.
    + rewrite (filter_cons_True _ t) by done.
      rewrite (filter_cons_False _ t) by congruence.
      cbn. by f_equiv.
    + rewrite (filter_cons_False _ t) by congruence.
      rewrite (filter_cons_True _ t) by done.
      rewrite <- Permutation_middle. by f_equiv.
  - apply sublist_filter.
  - apply sublist_filter.
  - apply Forall_forall. by intros t [Ht _]%list_elem_of_filter.
  - apply Forall_forall. by intros t [Ht _]%list_elem_of_filter.
Qed.

(** ** The service of src/output/task_manager/main.py *)

Section ListService.
Import TaskManager.
Implicit Types (tasks before after : list Task) (k : N).

Lemma get_task_by_id_none k tasks :
  Forall (fun t => Task_id t <> k) tasks -> get_task_by_id k tasks = None.
Proof.
  induction 1 as [|t tasks Ht _ IH]; [done|].
  cbn. by apply N.eqb_neq in Ht as ->.
Qed.

Lemma get_task_by_id_app k tasks after :
  get_task_by_id k (tasks ++ after) =
  match get_task_by_id k tasks with
  | Some task => Some task
  | None => get_task_by_id k after
  end.
Proof.
  induction tasks as [|t tasks IH]; [done|].
  cbn. by destruct (Task_id t =? k)%N.
Qed.

(** The task found is the first one with the identifier. *)
Lemma get_task_by_id_split k tasks task :
  get_task_by_id k tasks = Some task ->
  exists before after,
    tasks = before ++ task :: after
    /\ Forall (fun t => Task_id t <> k) before
    /\ Task_id task = k.
Proof.
  induction tasks as [|t tasks IH]; [done|]. cbn.
  destruct (Task_id t =? k)%N eqn:Ht.
  - intros [= ->]. exists [], tasks. apply N.eqb_eq in Ht.
    split; [done|]. by split; [constructor|].
  - intros (before & after & -> & Hb & Hk)%IH.
    exists (t :: before), after. apply N.eqb_neq in Ht.
    split; [done|]. by split; [constructor|].
Qed.

(** [remove] takes out the very element that was found. *)
Lemma list_remove_found k before task after :
  Forall (fun t => Task_id t <> k) before -> Task_id task = k ->
  list_remove task (before ++ task :: after) = before ++ after.
Proof.
  intros Hb Hk. induction Hb as [|t before Ht _ IH]; cbn.
  - by rewrite decide_True.
  - rewrite decide_False by (intros ->; done). by rewrite IH.
Qed.

Lemma assign_first_found k updated_task before task after :
  Forall (fun t => Task_id t <> k) before -> Task_id task = k ->
  assign_first k updated_task (before ++ task :: after)
  = before
      ++ mkTask (Task_id task) (Task_title updated_task)
           (Task_description updated_task) (Task_completed updated_task)
      :: after.
Proof.
  intros Hb Hk. induction Hb as [|t before Ht _ IH]; cbn.
  - apply N.eqb_eq in Hk. by rewrite Hk.
  - apply N.eqb_neq in Ht. by rewrite Ht, IH.
Qed.
End ListService.

(** X19: [create_task] of the list service stores every task it is given,
    also one whose identifier is in use; [get_task] keeps returning the
    first task stored under the identifier, so the later one cannot be
    reached. *)
Theorem task_manager_create_then_get
    (task : TaskManager.Task) (tasks : list TaskManager.Task) :
  TaskManager.list_tasks (snd (TaskManager.create_task task tasks))
  = TaskManager.list_tasks tasks ++ [task]
  /\ TaskManager.get_task (TaskManager.Task_id task)
       (snd (TaskManager.create_task task tasks))
     = match TaskManager.get_task_by_id (TaskManager.Task_id task) tasks with
       | Some first => Return first
       | None => Return task
       end.
Proof.
  unfold TaskManager.create_task, TaskManager.get_task. cbn [snd].
  split; [done|]. rewrite get_task_by_id_app.
  destruct (TaskManager.get_task_by_id (TaskManager.Task_id task) tasks);
    [done|].
  cbn. by rewrite N.eqb_refl.
Qed.

(** X20: [delete_task] of the list service removes the first task with the
    identifier, the one [get_task] returned, and no other: a later task
    with the same identifier stays and is what [get_task] returns next.  For
    an identifier that is not stored it raises 404 and leaves the list as
    it is. *)
Theorem task_manager_delete_first
    (task_id : N) (tasks : list TaskManager.Task) :
  match TaskManager.get_task_by_id task_id tasks with
  | None =>
      TaskManager.delete_task task_id tasks
      = (RaiseHTTP TaskManager.not_found, tasks)
  | Some task =>
      exists before after,
        tasks = before ++ task :: after
        /\ Forall (fun t => TaskManager.Task_id t <> task_id) before
        /\ TaskManager.delete_task task_id tasks = (Return tt, before ++ after)
        /\ TaskManager.get_task task_id (before ++ after)
           = TaskManager.get_task task_id after
  end.
Proof.
  unfold TaskManager.delete_task, TaskManager.get_task.
  destruct (TaskManager.get_task_by_id task_id tasks) as [task|] eqn:Hget;
    [|done].
  destruct (get_task_by_id_split _ _ _ Hget) as (before & after & -> & Hb & Hk).
  exists before, after. split; [done|]. split; [done|]. split.
  - by rewrite (list_remove_found task_id).
  - by rewrite get_task_by_id_app, get_task_by_id_none.
Qed.

(** X21: [update_task] of the list service changes the first task with the
    identifier, in place: it takes the title, description and status of the
    body and keeps its own identifier, whatever identifier the body
    carries; [get_task] then returns it, and the other tasks and their order
    are as before.  For an identifier that is not stored it raises 404 and
    leaves the list as it is. *)
Theorem task_manager_update_first
    (task_id : N) (updated_task : TaskManager.Task)
    (tasks : list TaskManager.Task) :
  match TaskManager.get_task_by_id task_id tasks with
  | None =>
      TaskManager.update_task task_id updated_task tasks
      = (RaiseHTTP TaskManager.not_found, tasks)
  | Some task =>
      exists before after,
        tasks = before ++ task :: after
        /\ TaskManager.update_task task_id updated_task tasks
           = (Return
                (TaskManager.mkTask task_id
                   (TaskManager.Task_title updated_task)
                   (TaskManager.Task_description updated_task)
                   (TaskManager.Task_completed updated_task)),
              before
                ++ TaskManager.mkTask task_id
                     (TaskManager.Task_title updated_task)
                     (TaskManager.Task_description updated_task)
                     (TaskManager.Task_completed updated_task)
                :: after)
        /\ TaskManager.get_task task_id
             (snd (TaskManager.update_task task_id updated_task tasks))
           = fst (TaskManager.update_task task_id updated_task tasks)
  end.
Proof.
  unfold TaskManager.update_task, TaskManager.get_task.
  destruct (TaskManager.get_task_by_id task_id tasks) as [task|] eqn:Hget;
    [|done].
  destruct (get_task_by_id_split _ _ _ Hget) as (before & after & -> & Hb & Hk).
  exists before, after. split; [done|].
  rewrite (assign_first_found task_id) by done. rewrite Hk.
  split; [done|]. cbn [fst snd].
  rewrite get_task_by_id_app, get_task_by_id_none by done.
  cbn. by rewrite N.eqb_refl.
Qed.
